(** * Efeito.py: extraction of the EFEITO sheet of the PCAT workbooks

    A shallow embedding of [src/Efeito.py].  The script is I/O plumbing, so
    the embedding is a state-and-exception monad over

    - the extractor object ([self]: configuration, output folder, list of
      files, the per-year buckets),
    - the world outside the script (file system and the objects pandas keeps
      internally, such as the open workbook writer), which the script only
      reaches through library calls,

    and every method call also yields the log records and library calls it
    made, in order.

    The library calls ([os.path.exists], [os.makedirs], [pd.read_excel],
    [pd.concat], [pd.ExcelWriter], [DataFrame.to_excel]) are the fields of the
    class [Runtime]; all but [os.path.exists] may raise.  [DataFrame.insert]
    is modelled on a column-oriented table.  Exceptions are instances of
    Python's [Exception], the ones that [except Exception] catches. *)

From stdpp Require Import gmap strings list pretty.
From Stdlib Require Import ZArith Lia.

Local Open Scope Z_scope.

(** ** Python strings *)

(** [str(year)] for a Python [int]. *)
Definition str (n : Z) : string := pretty n.

(** [needle in hay] for two Python strings. *)
Fixpoint str_in (needle hay : string) : bool :=
  String.prefix needle hay ||
  match hay with
  | EmptyString => false
  | String _ hay' => str_in needle hay'
  end.

(** Truthiness of a string: [not s] holds for the empty string only. *)
Definition str_truthy (s : string) : bool :=
  match s with
  | EmptyString => false
  | String _ _ => true
  end.

(** ** Exceptions and results *)

(** An instance of Python's [Exception]: its class name and [str(e)]. *)
Record Exception := { exc_class : string; exc_str : string }.

Definition KeyError (key : Z) : Exception :=
  {| exc_class := "KeyError"; exc_str := str key |}.

Definition ValueError (msg : string) : Exception :=
  {| exc_class := "ValueError"; exc_str := msg |}.

Definition IndexError (msg : string) : Exception :=
  {| exc_class := "IndexError"; exc_str := msg |}.

Inductive Result (A : Type) :=
| Ok (a : A)
| Raise (e : Exception).
Arguments Ok {A} a.
Arguments Raise {A} e.

(** ** Tables *)

Section Tables.
(** Cell values other than strings (numbers, dates, NaN, ...). *)
Context {Scalar : Type}.

Inductive Cell :=
| CStr (s : string)
| COther (v : Scalar).

(** A DataFrame, column by column: the row index and, per column, its
    label and one cell per row. *)
Record DataFrame := {
  df_index : list Z;
  df_columns : list (Cell * list Cell)
}.

(** [column == label] for a string [column]. *)
Definition label_is (column : string) (label : Cell) : bool :=
  match label with
  | CStr s => String.eqb column s
  | COther _ => false
  end.

(** [column in df.columns] *)
Definition has_column (column : string) (df : DataFrame) : bool :=
  existsb (fun c => label_is column (fst c)) (df_columns df).

(** [df.insert(loc, column, value)] with a scalar string [value], which
    pandas repeats on every row.  pandas refuses a label that is already
    there ([allow_duplicates] is off) and a position past the end. *)
Definition df_insert (loc : nat) (column value : string) (df : DataFrame)
  : Result DataFrame :=
  if has_column column df then
    Raise (ValueError ("cannot insert " +:+ column +:+ ", already exists"))
  else if bool_decide (loc ≤ length (df_columns df))%nat then
    Ok {| df_index := df_index df;
          df_columns :=
            take loc (df_columns df) ++
            (CStr column, replicate (length (df_index df)) (CStr value)) ::
            drop loc (df_columns df) |}
  else
    Raise (IndexError ("index " +:+ pretty loc +:+ " is out of bounds")).
End Tables.
Arguments Cell : clear implicits.
Arguments DataFrame : clear implicits.

(** ** Configuration and extractor object *)

(** [ExtractionConfig], a dataclass. *)
Record ExtractionConfig := {
  sheet_name : string;
  start_col : string;
  end_col : string;
  start_row : Z;
  end_row : Z;
  years : list Z
}.

(** [list(range(2014, 2025))] *)
Definition default_years : list Z :=
  [2014; 2015; 2016; 2017; 2018; 2019; 2020; 2021; 2022; 2023; 2024].

(** The dataclass constructor followed by [__post_init__]: a field that is
    not given takes its default, and [years = None] becomes the default
    range. *)
Definition __post_init__ (years : option (list Z)) : list Z :=
  match years with
  | None => default_years
  | Some ys => ys
  end.

Definition default_config : ExtractionConfig :=
  {| sheet_name := "EFEITO";
     start_col := "AI";
     end_col := "AV";
     start_row := 1;
     end_row := 11;
     years := __post_init__ None |}.

(** [PCATEffectExtractor]: the attributes of [self]. *)
Record PCATEffectExtractor {Scalar : Type} := {
  config : ExtractionConfig;
  output_folder : string;
  files_to_process : list (string * string);
  data_by_year : gmap Z (list (DataFrame Scalar))
}.
Arguments PCATEffectExtractor : clear implicits.

(** ** Log records and library calls *)

Inductive Level := INFO | WARNING | ERROR | CRITICAL.

Inductive Event {Scalar : Type} :=
| Log (level : Level) (msg : string)
| OsPathExists (path : string)
| OsMakedirs (path : string)
| ReadExcel (path sheet usecols : string) (nrows skiprows : Z)
| Concat (objs : list (DataFrame Scalar)) (ignore_index : bool)
| ExcelWriterOpen (path engine : string)
| ToExcel (df : DataFrame Scalar) (sheet : string) (index : bool)
| ExcelWriterClose (path : string).
Arguments Event : clear implicits.

(** ** The libraries the script calls

    A call that reads gives its value or the exception it raises.  A call
    that writes gives the world it leaves behind and the exception it
    raises, if any: a call may fail half-way (a full disk) with part of its
    work done. *)

Class Runtime (Scalar World : Type) := {
  (** [os.getcwd()] *)
  os_getcwd : World -> string;
  (** [os.path.join(a, b)] *)
  os_path_join : string -> string -> string;
  (** [os.path.exists(path)] *)
  os_path_exists : World -> string -> bool;
  (** [os.makedirs(path)] *)
  os_makedirs : World -> string -> World * option Exception;
  (** [pd.read_excel(path, sheet_name=, usecols=, nrows=, skiprows=)] *)
  pd_read_excel :
    World -> string -> string -> string -> Z -> Z ->
    Exception + DataFrame Scalar;
  (** [pd.concat(objs, ignore_index=)] *)
  pd_concat : list (DataFrame Scalar) -> bool -> Exception + DataFrame Scalar;
  (** [pd.ExcelWriter(path, engine=)] followed by [__enter__] *)
  ExcelWriter_open : World -> string -> string -> World * option Exception;
  (** [df.to_excel(writer, sheet_name=, index=)] *)
  df_to_excel :
    World -> DataFrame Scalar -> string -> bool -> World * option Exception;
  (** [writer.__exit__]: closes the writer, which saves the workbook *)
  ExcelWriter_close : World -> string -> World * option Exception
}.

(** ** The monad *)

(** What a method can change: the extractor object and the world. *)
Record State {Scalar World : Type} := {
  self : PCATEffectExtractor Scalar;
  world : World
}.
Arguments State : clear implicits.

(** What a method call leaves behind: its value or the exception that
    escaped it, the state it ended in, and the log records and library calls
    it made, oldest first. *)
Record Outcome {Scalar World A : Type} := {
  result : Result A;
  final : State Scalar World;
  emitted : list (Event Scalar)
}.
Arguments Outcome : clear implicits.

Definition M (Scalar World A : Type) : Type :=
  State Scalar World -> Outcome Scalar World A.

Section Monad.
Context {Scalar World : Type}.
Abbreviation St := (State Scalar World).
Abbreviation M := (M Scalar World).

(** [o'] happened after the events [evs]. *)
Definition after {A} (evs : list (Event Scalar)) (o' : Outcome Scalar World A)
  : Outcome Scalar World A :=
  {| result := result o'; final := final o'; emitted := evs ++ emitted o' |}.

Definition ret {A} (a : A) : M A :=
  fun st => {| result := Ok a; final := st; emitted := [] |}.

Definition bind {A B} (m : M A) (k : A -> M B) : M B :=
  fun st =>
    let o := m st in
    match result o with
    | Ok a => after (emitted o) (k a (final o))
    | Raise e =>
        {| result := Raise e; final := final o; emitted := emitted o |}
    end.

(** [try: body / except Exception as e: handler(e)]; what the body did
    before it raised stays done. *)
Definition try_except {A} (body : M A) (handler : Exception -> M A) : M A :=
  fun st =>
    let o := body st in
    match result o with
    | Ok a => o
    | Raise e => after (emitted o) (handler e (final o))
    end.

Definition lift {A} (r : Result A) : M A :=
  fun st => {| result := r; final := st; emitted := [] |}.

Definition get_self : M (PCATEffectExtractor Scalar) :=
  fun st => {| result := Ok (self st); final := st; emitted := [] |}.

Definition set_world (w : World) (st : St) : St :=
  {| self := self st; world := w |}.

Definition set_data_by_year (d : gmap Z (list (DataFrame Scalar))) (st : St)
  : St :=
  {| self := {| config := config (self st);
                output_folder := output_folder (self st);
                files_to_process := files_to_process (self st);
                data_by_year := d |};
     world := world st |}.

(** A library call that changes the world, and may raise. *)
Definition call_world (ev : Event Scalar)
    (f : World -> World * option Exception) : M unit :=
  fun st =>
    let '(w, raised) := f (world st) in
    {| result := match raised with Some e => Raise e | None => Ok tt end;
       final := set_world w st;
       emitted := [ev] |}.

(** A library call that returns a value or raises. *)
Definition call_value {A} (ev : Event Scalar) (f : World -> Exception + A)
  : M A :=
  fun st =>
    match f (world st) with
    | inl e => {| result := Raise e; final := st; emitted := [ev] |}
    | inr a => {| result := Ok a; final := st; emitted := [ev] |}
    end.

Definition logging (level : Level) (msg : string) : M unit :=
  fun st => {| result := Ok tt; final := st; emitted := [Log level msg] |}.

(** [for x in xs: body(x)] *)
Fixpoint for_each {A} (xs : list A) (body : A -> M unit) : M unit :=
  match xs with
  | [] => ret tt
  | x :: xs' => bind (body x) (fun _ => for_each xs' body)
  end.
End Monad.

Notation "'let*' x ':=' c 'in' k" := (bind c (fun x => k))
  (at level 10, x name, c at level 100, k at level 200).
Notation "c ';;' k" := (bind c (fun _ => k))
  (at level 100, k at level 200, right associativity).

(** ** The methods of [PCATEffectExtractor] *)

Section Extractor.
Context {Scalar World : Type} `{!Runtime Scalar World}.
Abbreviation St := (State Scalar World).
Abbreviation M := (M Scalar World).
Abbreviation Table := (DataFrame Scalar).

(** The hard-coded list of [__init__]. *)
Definition pcat_files : list (string * string) :=
  [ ("C:\Users\Hiden Number\Desktop\PCATs\PCAT_Cemar_2014.xlsx", "PCAT Maranhão 2014");
    ("C:\Users\Hiden Number\Desktop\PCATs\PCAT_Cemar_2015.xlsx", "PCAT Maranhão 2015");
    ("C:\Users\Hiden Number\Desktop\PCATs\PCAT_Cemar_2016.xlsx", "PCAT Maranhão 2016");
    ("C:\Users\Hiden Number\Desktop\PCATs\PCAT_Cemar_2017.xlsx", "PCAT Maranhão 2017");
    ("C:\Users\Hiden Number\Desktop\PCATs\PCAT_Cemar_2018 .xlsx", "PCAT Maranhão 2018");
    ("C:\Users\Hiden Number\Desktop\PCATs\PCAT_Cemar_2019.xlsx", "PCAT Maranhão 2019");
    ("C:\Users\Hiden Number\Desktop\PCATs\PCAT_Cemar_2020 V02.xlsx", "PCAT Maranhão 2020");
    ("C:\Users\Hiden Number\Desktop\PCATs\PCAT Cemar 2021 V02.xlsx", "PCAT Maranhão 2021");
    ("C:\Users\Hiden Number\Desktop\PCATs\PCAT Cemar 2022 V02.xlsx", "PCAT Maranhão 2022");
    ("C:\Users\Hiden Number\Desktop\PCATs\PCAT Equatorial MA 2023 V02.xlsx", "PCAT Maranhão 2023");
    ("C:\Users\Hiden Number\Desktop\PCATs\PCAT Equatorial MA 2024 V02.xlsx", "PCAT Maranhão 2024");
    ("C:\Users\Hiden Number\Desktop\PCATs\PCAT Equatorial MA 2025 V02.xlsx", "PCAT Maranhão 2025") ].

(** [{year: [] for year in years}] *)
Definition empty_buckets (years : list Z) : gmap Z (list Table) :=
  foldl (fun d year => <[year := []]> d) ∅ years.

Definition __init__ (w : World) (config : ExtractionConfig)
  : PCATEffectExtractor Scalar :=
  {| config := config;
     output_folder := os_path_join (os_getcwd w) "resultados_efeito";
     files_to_process := pcat_files;
     data_by_year := empty_buckets (years config) |}.

Definition _create_output_directory : M unit :=
  let* s := get_self in
  let* present :=
    call_value (OsPathExists (output_folder s))
      (fun w => inr (os_path_exists w (output_folder s))) in
  if negb present then
    call_world (OsMakedirs (output_folder s))
      (fun w => os_makedirs w (output_folder s));;
    logging INFO ("Diretório criado: " +:+ output_folder s)
  else ret tt.

(** The [try] block of [extract_data_from_file]. *)
Definition read_and_tag (file_info : string * string) : M (option Table) :=
  let '(file_path, description) := file_info in
  let* s := get_self in
  let usecols := start_col (config s) +:+ ":" +:+ end_col (config s) in
  let nrows := end_row (config s) - start_row (config s) + 1 in
  let skiprows := start_row (config s) - 1 in
  let* df :=
    call_value
      (ReadExcel file_path (sheet_name (config s)) usecols nrows skiprows)
      (fun w =>
         pd_read_excel w file_path (sheet_name (config s))
           usecols nrows skiprows) in
  let* df := lift (df_insert 0 "Arquivo_Origem" description df) in
  let* df := lift (df_insert 1 "Caminho_Arquivo" file_path df) in
  ret (Some df).

Definition extract_data_from_file (file_info : string * string)
  : M (option Table) :=
  let '(file_path, description) := file_info in
  try_except (read_and_tag file_info)
    (fun e =>
       logging ERROR
         ("Erro ao processar " +:+ description +:+ " (" +:+ file_path +:+ "): "
          +:+ exc_str e);;
       ret None).

(** [self.data_by_year[year].append(df)] *)
Definition bucket_append (year : Z) (df : Table) : M unit :=
  fun st =>
    match data_by_year (self st) !! year with
    | None =>
        {| result := Raise (KeyError year); final := st; emitted := [] |}
    | Some bucket =>
        {| result := Ok tt;
           final :=
             set_data_by_year
               (<[year := bucket ++ [df]]> (data_by_year (self st))) st;
           emitted := [] |}
    end.

(** The inner loop of [process_files], which leaves at the first year whose
    string is in the path. *)
Fixpoint add_to_year (ys : list Z) (file_path description : string)
    (df : Table) : M unit :=
  match ys with
  | [] => ret tt
  | year :: ys' =>
      if str_in (str year) file_path then
        bucket_append year df;;
        logging INFO
          ("Dados de " +:+ description +:+ " adicionados ao ano " +:+ str year)
      else add_to_year ys' file_path description df
  end.

(** The body of the loop of [process_files]. *)
Definition process_file (file_info : string * string) : M unit :=
  let '(file_path, description) := file_info in
  if negb (str_truthy file_path) then ret tt
  else
    let* present :=
      call_value (OsPathExists file_path)
        (fun w => inr (os_path_exists w file_path)) in
    if negb present then
      logging ERROR ("Arquivo não encontrado: " +:+ file_path)
    else
      logging INFO ("Processando arquivo: " +:+ description);;
      let* df := extract_data_from_file file_info in
      match df with
      | Some df =>
          let* s := get_self in
          add_to_year (years (config s)) file_path description df
      | None => ret tt
      end.

Definition process_files : M unit :=
  let* s := get_self in
  for_each (files_to_process s) process_file.

(** [self.data_by_year[year]] *)
Definition bucket_of (year : Z) : M (list Table) :=
  fun st =>
    match data_by_year (self st) !! year with
    | None =>
        {| result := Raise (KeyError year); final := st; emitted := [] |}
    | Some bucket => {| result := Ok bucket; final := st; emitted := [] |}
    end.

(** The body of the loop of [save_consolidated_file]. *)
Definition save_year (year : Z) : M unit :=
  let* bucket := bucket_of year in
  match bucket with
  | _ :: _ =>
      let* df_year :=
        call_value (Concat bucket true) (fun _ => pd_concat bucket true) in
      call_world (ToExcel df_year (str year) false)
        (fun w => df_to_excel w df_year (str year) false);;
      logging INFO ("Dados do ano " +:+ str year +:+ " salvos com sucesso")
  | [] =>
      logging WARNING ("Nenhum dado encontrado para o ano " +:+ str year)
  end.

(** [with pd.ExcelWriter(path, engine=engine) as writer: body].  The writer
    is closed on the way out, also when the body raised; an exception of
    the close replaces the one of the body. *)
Definition with_ExcelWriter (path engine : string) (body : M unit) : M unit :=
  call_world (ExcelWriterOpen path engine)
    (fun w => ExcelWriter_open w path engine);;
  fun st =>
    let o := body st in
    let closed :=
      call_world (ExcelWriterClose path) (fun w => ExcelWriter_close w path)
        (final o) in
    match result o, result closed with
    | Ok _, _ => after (emitted o) closed
    | Raise e, Ok _ =>
        {| result := Raise e;
           final := final closed;
           emitted := emitted o ++ emitted closed |}
    | Raise _, Raise e' => after (emitted o) closed
    end.

(** The [try] block of [save_consolidated_file]. *)
Definition write_workbook (output_file : string) : M unit :=
  let* s := get_self in
  with_ExcelWriter output_file "openpyxl"
    (for_each (years (config s)) save_year);;
  logging INFO ("Arquivo consolidado salvo em: " +:+ output_file).

Definition output_file (s : PCATEffectExtractor Scalar) : string :=
  os_path_join (output_folder s) "PCAT_Efeito_Consolidado.xlsx".

Definition save_consolidated_file : M unit :=
  let* s := get_self in
  try_except (write_workbook (output_file s))
    (fun e =>
       logging ERROR ("Erro ao salvar arquivo consolidado: " +:+ exc_str e)).

(** [any(path for path, _ in self.files_to_process)] *)
Definition any_path (files : list (string * string)) : bool :=
  existsb (fun file_info => str_truthy (fst file_info)) files.

Definition run : M unit :=
  logging INFO "Iniciando processamento dos arquivos PCAT";;
  let* s := get_self in
  if negb (any_path (files_to_process s)) then
    logging ERROR "Nenhum arquivo configurado para processamento"
  else
    _create_output_directory;;
    process_files;;
    save_consolidated_file;;
    logging INFO "Processamento concluído com sucesso!".


(** *** Vocabulary of the properties *)

(** Every configured year has its bucket, as [__init__] leaves it. *)
Definition keys_ok (st : St) : Prop :=
  forall year,
    year ∈ years (config (self st)) ->
    is_Some (data_by_year (self st) !! year).

(** The table [region] with the description and the path in front. *)
Definition tagged (description file_path : string) (region : Table) : Table :=
  {| df_index := df_index region;
     df_columns :=
       (CStr "Arquivo_Origem",
        replicate (length (df_index region)) (CStr description)) ::
       (CStr "Caminho_Arquivo",
        replicate (length (df_index region)) (CStr file_path)) ::
       df_columns region |}.

(** The call of [pd.read_excel] that [extract_data_from_file] makes. *)
Definition read_call (cfg : ExtractionConfig) (file_path : string)
  : Event Scalar :=
  ReadExcel file_path (sheet_name cfg)
    (start_col cfg +:+ ":" +:+ end_col cfg)
    (end_row cfg - start_row cfg + 1) (start_row cfg - 1).

(** [m] never changes [self] and makes only calls and log records that
    satisfy [P]. *)
Definition quiet {A} (P : Event Scalar -> Prop) (m : M A) : Prop :=
  forall st, self (final (m st)) = self st /\ Forall P (emitted (m st)).

(** The calls and log records of the write step. *)
Definition write_event (ev : Event Scalar) : Prop :=
  match ev with
  | Log _ _ | Concat _ _ | ExcelWriterOpen _ _ | ToExcel _ _ _
  | ExcelWriterClose _ => True
  | OsPathExists _ | OsMakedirs _ | ReadExcel _ _ _ _ _ => False
  end.

(** What the loop of [save_consolidated_file] does for one year, given the
    buckets: a warning for an empty bucket; for a bucket with tables the
    concatenation with [ignore_index=True] and, if pandas returns it, the
    sheet named [str(year)], written without the index, and a log record. *)
Definition year_events (d : gmap Z (list Table)) (year : Z)
  : list (Event Scalar) :=
  match d !! year with
  | None => []
  | Some [] =>
      [Log WARNING ("Nenhum dado encontrado para o ano " +:+ str year)]
  | Some (df :: dfs) =>
      match pd_concat (df :: dfs) true with
      | inl _ => [Concat (df :: dfs) true]
      | inr df_year =>
          [Concat (df :: dfs) true;
           ToExcel df_year (str year) false;
           Log INFO ("Dados do ano " +:+ str year +:+ " salvos com sucesso")]
      end
  end.

(** The year has a bucket, and pandas concatenates it if it has tables. *)
Definition year_written (d : gmap Z (list Table)) (year : Z) : Prop :=
  match d !! year with
  | None => False
  | Some [] => True
  | Some (df :: dfs) => exists df_year, pd_concat (df :: dfs) true = inr df_year
  end.

(** *** One entry of [process_files] as a function of configuration and world *)

(** What the [try] block of [extract_data_from_file] gives for a file. *)
Definition extracted (cfg : ExtractionConfig) (w : World)
    (file_path description : string) : Result Table :=
  match
    pd_read_excel w file_path (sheet_name cfg)
      (start_col cfg +:+ ":" +:+ end_col cfg)
      (end_row cfg - start_row cfg + 1) (start_row cfg - 1)
  with
  | inl e => Raise e
  | inr region =>
      match df_insert 0 "Arquivo_Origem" description region with
      | Raise e => Raise e
      | Ok df => df_insert 1 "Caminho_Arquivo" file_path df
      end
  end.

(** The year that gets the table of an entry and the table, if the entry has
    a path that exists, is extracted and names a configured year. *)
Definition placed (cfg : ExtractionConfig) (w : World)
    (entry : string * string) : option (Z * Table) :=
  if str_truthy entry.1 && os_path_exists w entry.1 then
    match extracted cfg w entry.1 entry.2 with
    | Ok df =>
        match find (fun year => str_in (str year) entry.1) (years cfg) with
        | Some year => Some (year, df)
        | None => None
        end
    | Raise _ => None
    end
  else None.

(** The tables that the entries of [files] give to [year], in file order. *)
Definition tables_for (cfg : ExtractionConfig) (w : World)
    (files : list (string * string)) (year : Z) : list Table :=
  omap
    (fun entry =>
       match placed cfg w entry with
       | Some (y, df) => if bool_decide (y = year) then Some df else None
       | None => None
       end)
    files.

(** The log records and library calls of one entry. *)
Definition entry_events (cfg : ExtractionConfig) (w : World)
    (entry : string * string) : list (Event Scalar) :=
  if negb (str_truthy entry.1) then []
  else if negb (os_path_exists w entry.1) then
    [OsPathExists entry.1;
     Log ERROR ("Arquivo não encontrado: " +:+ entry.1)]
  else
    [OsPathExists entry.1;
     Log INFO ("Processando arquivo: " +:+ entry.2);
     read_call cfg entry.1] ++
    match extracted cfg w entry.1 entry.2 with
    | Raise e =>
        [Log ERROR
           ("Erro ao processar " +:+ entry.2 +:+ " (" +:+ entry.1 +:+ "): "
            +:+ exc_str e)]
    | Ok df =>
        match find (fun year => str_in (str year) entry.1) (years cfg) with
        | Some year =>
            [Log INFO
               ("Dados de " +:+ entry.2 +:+ " adicionados ao ano "
                +:+ str year)]
        | None => []
        end
    end.

(** The calls of [pd.read_excel] among some events, in order. *)
Definition read_calls (evs : list (Event Scalar)) : list (Event Scalar) :=
  List.filter
    (fun ev => match ev with ReadExcel _ _ _ _ _ => true | _ => false end)
    evs.

(** The log records and the calls that only look at the world. *)
Definition read_event (ev : Event Scalar) : Prop :=
  match ev with
  | Log _ _ | OsPathExists _ | ReadExcel _ _ _ _ _ => True
  | OsMakedirs _ | Concat _ _ | ExcelWriterOpen _ _ | ToExcel _ _ _
  | ExcelWriterClose _ => False
  end.

(** The buckets [d'] are the buckets [d] with tables added at the end: no
    bucket appears, disappears or loses a table. *)
Definition grows (d d' : gmap Z (list Table)) : Prop :=
  forall year,
    match d !! year with
    | Some bucket => exists added, d' !! year = Some (bucket ++ added)
    | None => d' !! year = None
    end.

(** The buckets [d] after an entry that was [placed] as [slot]. *)
Definition add_table (d : gmap Z (list Table)) (slot : option (Z * Table))
  : gmap Z (list Table) :=
  match slot with
  | Some (year, df) => alter (fun bucket => bucket ++ [df]) year d
  | None => d
  end.

(** What [process_files] can change and what it can emit, on any
    extractor: it leaves the world and the other attributes alone, only adds
    tables to buckets, and only logs, looks and reads. *)
Definition reads_only (st : St) (o : Outcome Scalar World unit) : Prop :=
  world (final o) = world st /\
  config (self (final o)) = config (self st) /\
  output_folder (self (final o)) = output_folder (self st) /\
  files_to_process (self (final o)) = files_to_process (self st) /\
  grows (data_by_year (self st)) (data_by_year (self (final o))) /\
  Forall read_event (emitted o).

(** The events of an entry whose path is not there. *)
Definition missing_events (entry : string * string) : list (Event Scalar) :=
  if str_truthy entry.1 then
    [OsPathExists entry.1;
     Log ERROR ("Arquivo não encontrado: " +:+ entry.1)]
  else [].

(** Neither a concatenation nor a sheet. *)
Definition no_sheet (ev : Event Scalar) : Prop :=
  match ev with
  | Concat _ _ | ToExcel _ _ _ => False
  | _ => True
  end.

(** What the loop of [save_consolidated_file] can emit. *)
Definition sheet_event (ev : Event Scalar) : Prop :=
  match ev with
  | Log _ _ | Concat _ _ | ToExcel _ _ _ => True
  | _ => False
  end.

(** The warning of [save_consolidated_file] for a year without tables. *)
Definition no_data (year : Z) : Event Scalar :=
  Log WARNING ("Nenhum dado encontrado para o ano " +:+ str year).
End Extractor.

(** ** A small runtime to run the methods on

    Its world is the set of paths that exist and the sheets of the workbook
    that is being written.  Reading succeeds for an existing path and the
    sheet ["EFEITO"]; the writer opens only inside an existing directory and
    refuses to save a workbook without sheets, as openpyxl does. *)

Module Demo.
Record World := {
  paths : list string;
  book : list (string * DataFrame Z)
}.

Definition region : DataFrame Z :=
  {| df_index := [0];
     df_columns := [(CStr "Item", [CStr "Parcela A"]);
                    (CStr "Valor", [COther 42])] |}.

Definition exists_ (w : World) (path : string) : bool :=
  existsb (String.eqb path) (paths w).

Definition makedirs (w : World) (path : string) : World * option Exception :=
  if exists_ w path then
    (w, Some {| exc_class := "FileExistsError"; exc_str := "File exists" |})
  else ({| paths := path :: paths w; book := book w |}, None).

Definition read_excel (w : World) (path sheet usecols : string)
    (nrows skiprows : Z) : Exception + DataFrame Z :=
  if negb (exists_ w path) then
    inl {| exc_class := "FileNotFoundError";
           exc_str := "No such file or directory" |}
  else if String.eqb sheet "EFEITO" then inr region
  else inl (ValueError ("Worksheet named '" +:+ sheet +:+ "' not found")).

(** Stacks the rows of tables that have the columns of the first one. *)
Definition concat (objs : list (DataFrame Z)) (ignore_index : bool)
  : Exception + DataFrame Z :=
  match objs with
  | [] => inl (ValueError "No objects to concatenate")
  | first :: _ =>
      let rows := sum_list (map (fun df => length (df_index df)) objs) in
      inr {| df_index :=
               if ignore_index then seqZ 0 (Z.of_nat rows)
               else concat (map df_index objs);
             df_columns :=
               imap (fun i c =>
                       (fst c,
                        concat (map (fun df =>
                                       default [] (snd <$> df_columns df !! i))
                                    objs)))
                    (df_columns first) |}
  end.

Definition writer_open (w : World) (path engine : string)
  : World * option Exception :=
  if existsb (fun dir => String.prefix (dir +:+ "/") path) (paths w) then
    ({| paths := paths w; book := [] |}, None)
  else
    (w, Some {| exc_class := "OSError";
                exc_str := "Cannot save file into a non-existent directory" |}).

Definition to_excel (w : World) (df : DataFrame Z) (sheet : string)
    (index : bool) : World * option Exception :=
  ({| paths := paths w; book := book w ++ [(sheet, df)] |}, None).

Definition writer_close (w : World) (path : string)
  : World * option Exception :=
  match book w with
  | [] => (w, Some (IndexError "At least one sheet must be visible"))
  | _ :: _ => ({| paths := path :: paths w; book := book w |}, None)
  end.

#[global] Instance runtime : Runtime Z World := {|
  os_getcwd := fun _ => "/home/user";
  os_path_join := fun a b => a +:+ "/" +:+ b;
  os_path_exists := exists_;
  os_makedirs := makedirs;
  pd_read_excel := read_excel;
  pd_concat := concat;
  ExcelWriter_open := writer_open;
  df_to_excel := to_excel;
  ExcelWriter_close := writer_close
|}.

(** An extractor for the years 2020 and 2021 over four entries: one without
    a path, one that is missing, one of 2020 and one without a year. *)
Definition files : list (string * string) :=
  [ ("", "sem caminho");
    ("/data/PCAT_2019.xlsx", "PCAT 2019");
    ("/data/PCAT_2020.xlsx", "PCAT 2020");
    ("/data/PCAT.xlsx", "PCAT sem ano") ].

Definition extractor : PCATEffectExtractor Z :=
  {| config := {| sheet_name := "EFEITO"; start_col := "AI"; end_col := "AV";
                  start_row := 1; end_row := 11; years := [2020; 2021] |};
     output_folder := "/home/user/resultados_efeito";
     files_to_process := files;
     data_by_year := empty_buckets [2020; 2021] |}.

Definition disk : World :=
  {| paths := ["/data/PCAT_2020.xlsx"; "/data/PCAT.xlsx"]; book := [] |}.

Definition start : State Z World := {| self := extractor; world := disk |}.

(** The table that [extract_data_from_file] makes of the 2020 file. *)
Definition table_2020 : DataFrame Z :=
  tagged "PCAT 2020" "/data/PCAT_2020.xlsx" region.

(** The same extractor asked for a sheet that the workbooks do not have. *)
Definition other_sheet : State Z World :=
  {| self :=
       {| config := {| sheet_name := "RESUMO"; start_col := "AI";
                       end_col := "AV"; start_row := 1; end_row := 11;
                       years := [2020; 2021] |};
          output_folder := "/home/user/resultados_efeito";
          files_to_process := files;
          data_by_year := empty_buckets [2020; 2021] |};
     world := disk |}.

(** An extractor whose entries all lack a path. *)
Definition idle : State Z World :=
  {| self :=
       {| config := config extractor;
          output_folder := "/home/user/resultados_efeito";
          files_to_process := [("", "sem caminho"); ("", "PCAT 2020")];
          data_by_year := empty_buckets [2020; 2021] |};
     world := disk |}.

(** The state in which [run] calls [save_consolidated_file]. *)
Definition processed : State Z World :=
  final (process_files (final (_create_output_directory start))).

(** The same extractor on a disk without any of its files. *)
Definition bare : State Z World :=
  {| self := extractor; world := {| paths := []; book := [] |} |}.

(** The extractor as the script builds it, on a disk that has the last two
    workbooks of the built-in list. *)
Definition archive : State Z World :=
  let w :=
    {| paths :=
         ["C:\Users\Hiden Number\Desktop\PCATs\PCAT Equatorial MA 2024 V02.xlsx";
          "C:\Users\Hiden Number\Desktop\PCATs\PCAT Equatorial MA 2025 V02.xlsx"];
       book := [] |} in
  {| self := __init__ w default_config; world := w |}.

(** The extractor after somebody emptied its dictionary of buckets. *)
Definition unkeyed : State Z World :=
  {| self :=
       {| config := config extractor;
          output_folder := "/home/user/resultados_efeito";
          files_to_process := files;
          data_by_year := ∅ |};
     world := disk |}.

(** A runtime whose workbooks already carry the two identifying columns, as
    a consolidated workbook fed back to the script would. *)
Definition replay : Runtime Z World := {|
  os_getcwd := fun _ => "/home/user";
  os_path_join := fun a b => a +:+ "/" +:+ b;
  os_path_exists := exists_;
  os_makedirs := makedirs;
  pd_read_excel := fun _ _ _ _ _ _ => inr table_2020;
  pd_concat := concat;
  ExcelWriter_open := writer_open;
  df_to_excel := to_excel;
  ExcelWriter_close := writer_close
|}.
End Demo.

(** ** Properties *)

Create HintDb extractor discriminated.

Lemma str_inj (x y : Z) : str x = str y -> x = y.
Proof. unfold str. apply (inj pretty). Qed.

Lemma str_truthy_false (s : string) : str_truthy s = false <-> s = "".
Proof. destruct s; simpl; split; congruence. Qed.

Lemma append_cons (c : Ascii.ascii) (s t : string) :
  String c s +:+ t = String c (s +:+ t).
Proof. reflexivity. Qed.

Lemma append_empty (t : string) : "" +:+ t = t.
Proof. reflexivity. Qed.

(** A string is in another one exactly when it sits between two pieces of
    it. *)
Lemma prefix_app_split (p s : string) :
  String.prefix p s = true <-> exists post, s = p +:+ post.
Proof.
  revert s. induction p as [|c p IH]; intros s.
  - split; [intros _; exists s; reflexivity | intros _; by destruct s].
  - destruct s as [|c' s]; simpl.
    + split; [discriminate | intros [post H]; discriminate].
    + destruct (Ascii.ascii_dec c c') as [->|Hne].
      * rewrite IH. split; intros [post H]; exists post;
          rewrite append_cons in *; congruence.
      * split; [discriminate|].
        intros [post H]. rewrite append_cons in H. congruence.
Qed.

Lemma str_in_split (needle hay : string) :
  str_in needle hay = true <->
  exists pre post, hay = pre +:+ needle +:+ post.
Proof.
  induction hay as [|c hay IH].
  - change (str_in needle "") with (String.prefix needle "" || false).
    rewrite orb_false_r, prefix_app_split. split.
    + intros [post H]. exists "", post. exact H.
    + intros [[|c pre] [post H]]; [exists post; exact H | discriminate].
  - change (str_in needle (String c hay))
      with (String.prefix needle (String c hay) || str_in needle hay).
    rewrite orb_true_iff, prefix_app_split, IH. split.
    + intros [[post H] | (pre & post & H)].
      * exists "", post. exact H.
      * exists (String c pre), post. rewrite append_cons. congruence.
    + intros ([|c' pre] & post & H).
      * left. exists post. exact H.
      * right. exists pre, post. rewrite append_cons in H. congruence.
Qed.

Section Properties.
Context {Scalar World : Type} `{!Runtime Scalar World}.
Abbreviation St := (State Scalar World).
Abbreviation Table := (DataFrame Scalar).
Implicit Types (st : St) (df : Table) (e : Exception).
Local Abbreviation quietly := (quiet (Scalar := Scalar) (World := World)).

Lemma empty_buckets_lookup (ys : list Z) (year : Z) :
  year ∈ ys -> empty_buckets (Scalar := Scalar) ys !! year = Some [].
Proof.
  unfold empty_buckets.
  assert (forall (d : gmap Z (list Table)),
             foldl (fun d y => <[y := []]> d) d ys !! year =
             if bool_decide (year ∈ ys) then Some [] else d !! year) as Hgen.
  { induction ys as [|y ys IH]; intros d; cbn [foldl].
    - case_bool_decide as Hin; [by apply elem_of_nil in Hin | done].
    - rewrite IH. repeat case_bool_decide; try done.
      + exfalso. set_solver.
      + destruct (decide (year = y)) as [->|Hne].
        * apply lookup_insert_eq.
        * exfalso. rewrite elem_of_cons in *. tauto.
      + apply lookup_insert_ne. set_solver. }
  intros Hin. rewrite Hgen. by rewrite bool_decide_eq_true_2.
Qed.

Lemma keys_ok_init (w : World) (cfg : ExtractionConfig) :
  keys_ok {| self := __init__ w cfg; world := w |}.
Proof.
  intros year Hin. simpl in *. rewrite empty_buckets_lookup; eauto.
Qed.

(** *** The two columns of [extract_data_from_file] *)

Lemma insert_both (description file_path : string) (region : Table) :
  match df_insert 0 "Arquivo_Origem" description region with
  | Ok df1 =>
      match df_insert 1 "Caminho_Arquivo" file_path df1 with
      | Ok df2 =>
          has_column "Arquivo_Origem" region = false /\
          has_column "Caminho_Arquivo" region = false /\
          df2 = tagged description file_path region
      | Raise _ => has_column "Caminho_Arquivo" region = true
      end
  | Raise _ => has_column "Arquivo_Origem" region = true
  end.
Proof.
  destruct region as [idx cols]. unfold df_insert, has_column, tagged.
  cbn [df_columns df_index].
  destruct (existsb (fun c => label_is "Arquivo_Origem" c.1) cols);
    [reflexivity|].
  rewrite bool_decide_eq_true_2 by lia.
  simpl. rewrite !drop_0.
  destruct (existsb (fun c => label_is "Caminho_Arquivo" c.1) cols);
    simpl; auto.
Qed.

(** What the [try] block does, case by case. *)
Lemma read_and_tag_cases st file_path description :
  let cfg := config (self st) in
  let o := read_and_tag (file_path, description) st in
  final o = st /\
  emitted o = [read_call cfg file_path] /\
  match
    pd_read_excel (world st) file_path (sheet_name cfg)
      (start_col cfg +:+ ":" +:+ end_col cfg)
      (end_row cfg - start_row cfg + 1) (start_row cfg - 1)
  with
  | inl e => result o = Raise e
  | inr region =>
      if has_column "Arquivo_Origem" region
         || has_column "Caminho_Arquivo" region
      then exists e, result o = Raise e
      else result o = Ok (Some (tagged description file_path region))
  end.
Proof.
  unfold read_and_tag, read_call, bind, get_self, call_value, lift, ret, after.
  simpl.
  destruct (pd_read_excel _ _ _ _ _ _) as [e|region]; simpl; [auto|].
  pose proof (insert_both description file_path region) as Hins.
  destruct (df_insert 0 _ _ region) as [df1|e1]; simpl.
  - destruct (df_insert 1 _ _ df1) as [df2|e2]; simpl.
    + destruct Hins as (-> & -> & ->). simpl. auto.
    + rewrite Hins, orb_true_r. eauto.
  - rewrite Hins. simpl. eauto.
Qed.

Lemma extract_data_from_file_cases st file_path description :
  let cfg := config (self st) in
  let body := read_and_tag (file_path, description) st in
  let o := extract_data_from_file (file_path, description) st in
  final o = st /\
  match result body with
  | Ok r => result o = Ok r /\ emitted o = [read_call cfg file_path]
  | Raise e =>
      result o = Ok None /\
      emitted o =
        [read_call cfg file_path;
         Log ERROR
           ("Erro ao processar " +:+ description +:+ " (" +:+ file_path
            +:+ "): " +:+ exc_str e)]
  end.
Proof.
  destruct (read_and_tag_cases st file_path description) as (Hf & Hev & _).
  cbv zeta in *.
  unfold extract_data_from_file, try_except. cbv beta iota zeta.
  destruct (result (read_and_tag (file_path, description) st)) eqn:Hres.
  - auto.
  - unfold bind, logging, ret, after. cbn [result final emitted].
    rewrite Hev. cbn [app]. auto.
Qed.

(** *** Sequencing *)

Lemma bind_Ok {A B} (m : M Scalar World A) (k : A -> M Scalar World B)
    st (a : A) :
  result (m st) = Ok a ->
  bind m k st = after (emitted (m st)) (k a (final (m st))).
Proof. intros H. unfold bind. cbv zeta. by rewrite H. Qed.

Lemma bind_Raise {A B} (m : M Scalar World A) (k : A -> M Scalar World B)
    st e :
  result (m st) = Raise e ->
  bind m k st =
  {| result := Raise e; final := final (m st); emitted := emitted (m st) |}.
Proof. intros H. unfold bind. cbv zeta. by rewrite H. Qed.

Lemma bind_step {A B} (m : M Scalar World A) (k : A -> M Scalar World B)
    st st' (a : A) evs :
  m st = {| result := Ok a; final := st'; emitted := evs |} ->
  bind m k st = after evs (k a st').
Proof. intros H. unfold bind. cbv zeta. by rewrite H. Qed.

Lemma after_after {A} (evs1 evs2 : list (Event Scalar))
    (o : Outcome Scalar World A) :
  after evs1 (after evs2 o) = after (evs1 ++ evs2) o.
Proof. unfold after. simpl. by rewrite app_assoc. Qed.

Lemma after_nil {A} (o : Outcome Scalar World A) : after [] o = o.
Proof. by destruct o. Qed.

Lemma for_each_cons {A} (x : A) (xs : list A) (body : A -> M Scalar World unit)
    st st' evs :
  body x st = {| result := Ok tt; final := st'; emitted := evs |} ->
  for_each (x :: xs) body st = after evs (for_each xs body st').
Proof. intros H. cbn [for_each]. unfold bind. cbv zeta. by rewrite H. Qed.

(** *** The loop over the years in [process_files] *)

Lemma add_to_year_cases (ys : list Z) st file_path description df :
  add_to_year ys file_path description df st =
  match find (fun year => str_in (str year) file_path) ys with
  | Some year =>
      match data_by_year (self st) !! year with
      | Some bucket =>
          {| result := Ok tt;
             final :=
               set_data_by_year
                 (<[year := bucket ++ [df]]> (data_by_year (self st))) st;
             emitted :=
               [Log INFO
                  ("Dados de " +:+ description +:+ " adicionados ao ano "
                   +:+ str year)] |}
      | None =>
          {| result := Raise (KeyError year); final := st; emitted := [] |}
      end
  | None => {| result := Ok tt; final := st; emitted := [] |}
  end.
Proof.
  induction ys as [|year ys IH]; cbn [add_to_year find]; [reflexivity|].
  destruct (str_in (str year) file_path); [|exact IH].
  unfold bind, bucket_append, logging, after. cbv zeta.
  by destruct (data_by_year (self st) !! year).
Qed.

Lemma find_unique {A} (f : A -> bool) (l : list A) (x : A) :
  x ∈ l -> f x = true ->
  (forall y, y ∈ l -> f y = true -> y = x) ->
  find f l = Some x.
Proof.
  intros Hin Hx Huniq. destruct (find f l) as [y|] eqn:Hfind.
  - apply find_some in Hfind as [Hy Hfy].
    f_equal. apply Huniq; [by apply list_elem_of_In | done].
  - apply list_elem_of_In in Hin.
    pose proof (find_none f l Hfind x Hin). congruence.
Qed.

Lemma find_absent {A} (f : A -> bool) (l : list A) :
  (forall y, y ∈ l -> f y = false) -> find f l = None.
Proof.
  intros Hnone. destruct (find f l) as [y|] eqn:Hfind; [|done].
  apply find_some in Hfind as [Hy Hfy].
  apply list_elem_of_In in Hy. rewrite (Hnone y Hy) in Hfy. discriminate.
Qed.

(** *** One entry of [process_files] *)

Lemma process_file_cases st file_path description :
  let o := process_file (file_path, description) st in
  let x := extract_data_from_file (file_path, description) st in
  let seen :=
    [OsPathExists file_path;
     Log INFO ("Processando arquivo: " +:+ description)] ++ emitted x in
  if negb (str_truthy file_path) then
    o = {| result := Ok tt; final := st; emitted := [] |}
  else if negb (os_path_exists (world st) file_path) then
    o = {| result := Ok tt; final := st;
           emitted :=
             [OsPathExists file_path;
              Log ERROR ("Arquivo não encontrado: " +:+ file_path)] |}
  else
    match result x with
    | Ok (Some df) =>
        o = after seen
              (add_to_year (years (config (self st))) file_path description
                 df st)
    | Ok None => o = {| result := Ok tt; final := st; emitted := seen |}
    | Raise e => False
    end.
Proof.
  cbv zeta. unfold process_file. cbv beta iota.
  destruct (str_truthy file_path); cbn [negb]; [|reflexivity].
  erewrite bind_step by reflexivity.
  destruct (os_path_exists (world st) file_path); cbn [negb]; [|reflexivity].
  erewrite bind_step by reflexivity.
  rewrite after_after. cbn [app].
  destruct (extract_data_from_file_cases st file_path description)
    as [Hfinal Hx]. cbv zeta in Hfinal, Hx.
  assert (exists r,
             result (extract_data_from_file (file_path, description) st)
             = Ok r) as [r Hres].
  { destruct (result (read_and_tag (file_path, description) st));
      destruct Hx; eauto. }
  clear Hx. rewrite (bind_Ok _ _ _ r Hres), Hres, after_after, Hfinal.
  destruct r as [df|].
  - erewrite bind_step by reflexivity. by rewrite after_nil.
  - unfold ret, after. cbn [result final emitted]. by rewrite app_nil_r.
Qed.

Lemma process_files_loop st :
  process_files st = for_each (files_to_process (self st)) process_file st.
Proof.
  unfold process_files. erewrite bind_step by reflexivity. apply after_nil.
Qed.

(** C10: [extract_data_from_file] leaves the extractor as it found it,
    whatever the file: [data_by_year], [config], [files_to_process] and
    [output_folder] (and the world) are the same afterwards, and the call
    always returns, with a table or with [None]. *)
Theorem extract_data_from_file_frame st (file_info : string * string) :
  let o := extract_data_from_file file_info st in
  final o = st /\
  data_by_year (self (final o)) = data_by_year (self st) /\
  config (self (final o)) = config (self st) /\
  files_to_process (self (final o)) = files_to_process (self st) /\
  output_folder (self (final o)) = output_folder (self st) /\
  exists r : option Table, result o = Ok r.
Proof.
  destruct file_info as [file_path description]. cbv zeta.
  destruct (extract_data_from_file_cases st file_path description)
    as [Hfinal Hx]. cbv zeta in Hfinal, Hx.
  rewrite Hfinal. repeat split.
  destruct (result (read_and_tag (file_path, description) st));
    destruct Hx; eauto.
Qed.

(** C4: [extract_data_from_file] returns a table exactly when
    [pd.read_excel], called once on the path with the configured sheet,
    the columns [start_col:end_col], [nrows = end_row - start_row + 1] and
    [skiprows = start_row - 1], returns a region that has neither of the two
    identifying labels; the table is that region with the description as
    column 0 and the path as column 1, on every row. *)
Theorem extract_data_from_file_success st file_path description df :
  let cfg := config (self st) in
  let usecols := start_col cfg +:+ ":" +:+ end_col cfg in
  let nrows := end_row cfg - start_row cfg + 1 in
  let skiprows := start_row cfg - 1 in
  let o := extract_data_from_file (file_path, description) st in
  (result o = Ok (Some df) <->
   exists region,
     pd_read_excel (world st) file_path (sheet_name cfg) usecols nrows
       skiprows = inr region /\
     has_column "Arquivo_Origem" region = false /\
     has_column "Caminho_Arquivo" region = false /\
     df_index df = df_index region /\
     df_columns df =
       (CStr "Arquivo_Origem",
        replicate (length (df_index region)) (CStr description)) ::
       (CStr "Caminho_Arquivo",
        replicate (length (df_index region)) (CStr file_path)) ::
       df_columns region) /\
  (result o = Ok (Some df) ->
   emitted o = [ReadExcel file_path (sheet_name cfg) usecols nrows skiprows]).
Proof.
  cbv zeta.
  destruct (extract_data_from_file_cases st file_path description)
    as [_ Hx].
  destruct (read_and_tag_cases st file_path description) as (_ & _ & Hbody).
  cbv zeta in Hx, Hbody. unfold read_call in Hx.
  destruct (result (read_and_tag (file_path, description) st)) as [r|e]
    eqn:Hres; destruct Hx as [Hr Hev]; rewrite Hr.
  - split; [|done].
    destruct (pd_read_excel _ _ _ _ _ _) as [e|region]; [done|].
    destruct (has_column "Arquivo_Origem" region) eqn:H0;
      [destruct Hbody; done|].
    destruct (has_column "Caminho_Arquivo" region) eqn:H1;
      [destruct Hbody; done|].
    cbn [orb] in Hbody. injection Hbody as ->. split.
    + intros [= <-]. exists region. by repeat split.
    + intros (region' & [= <-] & _ & _ & Hidx & Hcols).
      do 2 f_equal. destruct df as [idx cols]. cbn in Hidx, Hcols.
      unfold tagged. by rewrite Hidx, Hcols.
  - split; [|done]. split; [done|].
    intros (region & Hread & H0 & H1 & _). rewrite Hread, H0, H1 in Hbody.
    cbn [orb] in Hbody. done.
Qed.

(** C5: when the [try] block of [extract_data_from_file] raises,
    the method returns [None] instead, with the state untouched, and logs
    an error with the description, the path and [str(e)]; in
    [process_files] the entry adds nothing to any bucket and the loop goes
    on with the next entry. *)
Theorem extraction_failure_logged_and_skipped st file_path description e
    (rest : list (string * string)) :
  result (read_and_tag (file_path, description) st) = Raise e ->
  let failure :=
    [read_call (config (self st)) file_path;
     Log ERROR
       ("Erro ao processar " +:+ description +:+ " (" +:+ file_path +:+ "): "
        +:+ exc_str e)] in
  extract_data_from_file (file_path, description) st =
    {| result := Ok None; final := st; emitted := failure |} /\
  (str_truthy file_path = true ->
   os_path_exists (world st) file_path = true ->
   let seen :=
     OsPathExists file_path ::
     Log INFO ("Processando arquivo: " +:+ description) :: failure in
   process_file (file_path, description) st =
     {| result := Ok tt; final := st; emitted := seen |} /\
   for_each ((file_path, description) :: rest) process_file st =
     after seen (for_each rest process_file st)).
Proof.
  intros Hraise failure.
  destruct (extract_data_from_file_cases st file_path description)
    as [Hfinal Hx]. cbv zeta in Hfinal, Hx. rewrite Hraise in Hx.
  destruct Hx as [Hres Hev].
  assert (extract_data_from_file (file_path, description) st =
          {| result := Ok None; final := st; emitted := failure |}) as Hx.
  { destruct (extract_data_from_file _ st). cbn in *. by subst. }
  split; [exact Hx|]. intros Htruthy Hexists seen.
  pose proof (process_file_cases st file_path description) as Hcases.
  cbv zeta in Hcases. rewrite Htruthy, Hexists, Hx in Hcases.
  cbn [negb result emitted app] in Hcases.
  split; [exact Hcases|]. by apply for_each_cons.
Qed.

(** C1: an extracted table goes to the bucket of the first configured year,
    in list order, whose decimal string is in the path, and to that bucket
    only; so with exactly one such year the table is at the end of that
    year's bucket and every other bucket is as before. *)
Theorem process_file_first_matching_year st file_path description df :
  keys_ok st ->
  str_truthy file_path = true ->
  os_path_exists (world st) file_path = true ->
  result (extract_data_from_file (file_path, description) st)
    = Ok (Some df) ->
  let ys := years (config (self st)) in
  let d := data_by_year (self st) in
  let o := process_file (file_path, description) st in
  let d' := data_by_year (self (final o)) in
  result o = Ok tt /\
  match find (fun year => str_in (str year) file_path) ys with
  | Some year =>
      exists bucket,
        d !! year = Some bucket /\ d' = <[year := bucket ++ [df]]> d
  | None => d' = d
  end /\
  forall year,
    year ∈ ys ->
    str_in (str year) file_path = true ->
    (forall other,
        other ∈ ys -> str_in (str other) file_path = true -> other = year) ->
    (exists bucket,
        d !! year = Some bucket /\ d' !! year = Some (bucket ++ [df])) /\
    forall other, other <> year -> d' !! other = d !! other.
Proof.
  intros Hkeys Htruthy Hexists Hres. cbv zeta.
  pose proof (process_file_cases st file_path description) as Hcases.
  cbv zeta in Hcases. rewrite Htruthy, Hexists, Hres in Hcases.
  cbn [negb] in Hcases. rewrite add_to_year_cases in Hcases.
  destruct (find _ (years (config (self st)))) as [first|] eqn:Hfind.
  - pose proof (find_some _ _ Hfind) as [Hin Hmatch].
    apply list_elem_of_In in Hin.
    destruct (Hkeys first Hin) as [bucket Hbucket].
    rewrite Hbucket in Hcases. rewrite Hcases. cbn.
    split; [done|]. split; [eauto|].
    intros year Hyear Hyes Huniq.
    assert (first = year) as -> by (apply Huniq; done).
    split.
    + exists bucket. by rewrite lookup_insert_eq.
    + intros other Hne. by apply lookup_insert_ne.
  - rewrite Hcases. cbn. split; [done|]. split; [done|].
    intros year Hyear Hyes _. exfalso.
    apply list_elem_of_In in Hyear.
    pose proof (find_none _ _ Hfind year Hyear) as Hno.
    cbv beta in Hno. congruence.
Qed.

(** C2: an extracted table whose path has no configured year's string in it
    is dropped without a word: the entry ends normally and leaves the
    state, so every bucket, as it was, it logs no error or warning, and
    what [save_consolidated_file] then writes is what it would have written
    before the entry. *)
Theorem process_file_without_year_dropped st file_path description df :
  str_truthy file_path = true ->
  os_path_exists (world st) file_path = true ->
  result (extract_data_from_file (file_path, description) st)
    = Ok (Some df) ->
  (forall year,
      year ∈ years (config (self st)) ->
      str_in (str year) file_path = false) ->
  let o := process_file (file_path, description) st in
  result o = Ok tt /\
  final o = st /\
  emitted o =
    [OsPathExists file_path;
     Log INFO ("Processando arquivo: " +:+ description);
     read_call (config (self st)) file_path] /\
  save_consolidated_file (final o) = save_consolidated_file st.
Proof.
  intros Htruthy Hexists Hres Hnone. cbv zeta.
  pose proof (process_file_cases st file_path description) as Hcases.
  cbv zeta in Hcases. rewrite Htruthy, Hexists, Hres in Hcases.
  cbn [negb] in Hcases.
  rewrite add_to_year_cases, (find_absent _ _ Hnone) in Hcases.
  destruct (extract_data_from_file_cases st file_path description)
    as [_ Hx]. cbv zeta in Hx.
  destruct (result (read_and_tag (file_path, description) st));
    destruct Hx as [Hr Hev]; [|congruence].
  rewrite Hev in Hcases. rewrite Hcases. cbn. done.
Qed.

(** C8: in the loop of [process_files] an entry with an empty path is
    passed over with no log record and no library call, and an entry whose
    path does not exist gets one error record and no [pd.read_excel]; in
    both cases the loop carries on with the remaining entries from the
    same state. *)
Theorem process_files_skips_entry st file_path description
    (rest : list (string * string)) :
  let entry := (file_path, description) in
  let missing :=
    [OsPathExists file_path;
     Log ERROR ("Arquivo não encontrado: " +:+ file_path)] in
  process_files st = for_each (files_to_process (self st)) process_file st /\
  (file_path = "" ->
   process_file entry st =
     {| result := Ok tt; final := st; emitted := [] |} /\
   for_each (entry :: rest) process_file st =
     for_each rest process_file st) /\
  (file_path <> "" ->
   os_path_exists (world st) file_path = false ->
   process_file entry st =
     {| result := Ok tt; final := st; emitted := missing |} /\
   for_each (entry :: rest) process_file st =
     after missing (for_each rest process_file st)).
Proof.
  cbv zeta. split; [apply process_files_loop|].
  pose proof (process_file_cases st file_path description) as Hcases.
  cbv zeta in Hcases. split.
  - intros ->. cbn [str_truthy negb] in Hcases. split; [exact Hcases|].
    rewrite (for_each_cons _ _ _ _ _ _ Hcases). apply after_nil.
  - intros Hpath Hmissing.
    assert (str_truthy file_path = true) as Htruthy.
    { destruct (str_truthy file_path) eqn:Ht; [done|].
      by apply str_truthy_false in Ht. }
    rewrite Htruthy, Hmissing in Hcases. cbn [negb] in Hcases.
    split; [exact Hcases|]. by apply for_each_cons.
Qed.

(** *** Methods that leave the extractor alone *)

Lemma quiet_ret {A} (P : Event Scalar -> Prop) (a : A) : quietly P (ret a).
Proof. intros st. by split. Qed.

Lemma quiet_get_self (P : Event Scalar -> Prop) : quietly P get_self.
Proof. intros st. by split. Qed.

Lemma quiet_logging (P : Event Scalar -> Prop) level msg :
  P (Log level msg) -> quietly P (logging level msg).
Proof. intros HP st. split; [done|]. by repeat constructor. Qed.

Lemma quiet_call_world (P : Event Scalar -> Prop) ev f :
  P ev -> quietly P (call_world ev f).
Proof.
  intros HP st. unfold call_world.
  destruct (f (world st)) as [w raised]. split; [done|].
  by repeat constructor.
Qed.

Lemma quiet_call_value {A} (P : Event Scalar -> Prop) ev
    (f : World -> Exception + A) :
  P ev -> quietly P (call_value ev f).
Proof.
  intros HP st. unfold call_value.
  destruct (f (world st)); split; try done; by repeat constructor.
Qed.

Lemma quiet_bucket_of (P : Event Scalar -> Prop) year :
  quietly P (bucket_of year).
Proof.
  intros st. unfold bucket_of.
  by destruct (data_by_year (self st) !! year).
Qed.

Lemma quiet_bind {A B} (P : Event Scalar -> Prop) (m : M Scalar World A) (k : A -> M Scalar World B) :
  quietly P m -> (forall a, quietly P (k a)) -> quietly P (bind m k).
Proof.
  intros Hm Hk st. unfold bind. cbv zeta.
  destruct (Hm st) as [Hself Hev].
  destruct (result (m st)) as [a|e]; [|done].
  destruct (Hk a (final (m st))) as [Hself' Hev'].
  cbn. split; [congruence | by apply Forall_app].
Qed.

Lemma quiet_try_except {A} (P : Event Scalar -> Prop) (body : M Scalar World A) handler :
  quietly P body -> (forall e, quietly P (handler e)) ->
  quietly P (try_except body handler).
Proof.
  intros Hm Hk st. unfold try_except. cbv zeta.
  destruct (Hm st) as [Hself Hev].
  destruct (result (body st)) as [a|e]; [done|].
  destruct (Hk e (final (body st))) as [Hself' Hev'].
  cbn. split; [congruence | by apply Forall_app].
Qed.

Lemma quiet_for_each {A} (P : Event Scalar -> Prop) (xs : list A) (body : A -> M Scalar World unit) :
  (forall x, quietly P (body x)) -> quietly P (for_each xs body).
Proof.
  intros Hbody. induction xs as [|x xs IH]; cbn [for_each].
  - apply quiet_ret.
  - apply quiet_bind; auto.
Qed.

Lemma quiet_with_ExcelWriter (P : Event Scalar -> Prop) path engine body :
  P (ExcelWriterOpen path engine) -> P (ExcelWriterClose path) ->
  quietly P body -> quietly P (with_ExcelWriter path engine body).
Proof.
  intros Hopen Hclose Hbody. unfold with_ExcelWriter.
  apply quiet_bind; [by apply quiet_call_world|]. intros _ st. cbv zeta.
  destruct (Hbody st) as [Hself Hev].
  destruct (quiet_call_world P (ExcelWriterClose path)
              (fun w => ExcelWriter_close w path) Hclose (final (body st)))
    as [Hself' Hev'].
  destruct (result (body st)) as [[]|e];
    [|destruct (result (call_world _ _ (final (body st)))) as [[]|e']];
    cbn; (split; [congruence | by apply Forall_app]).
Qed.

#[local] Hint Resolve quiet_ret quiet_get_self quiet_logging quiet_call_world
  quiet_call_value quiet_bucket_of quiet_bind quiet_try_except
  quiet_for_each quiet_with_ExcelWriter : extractor.

Lemma quiet_save_year year : quietly write_event (save_year year).
Proof.
  unfold save_year. apply quiet_bind; [auto with extractor|].
  intros [|df bucket]; [by apply quiet_logging|].
  apply quiet_bind; [by apply quiet_call_value|]. intros df_year.
  apply quiet_bind; [by apply quiet_call_world|]. intros _.
  by apply quiet_logging.
Qed.

Lemma quiet_write_workbook path : quietly write_event (write_workbook path).
Proof.
  unfold write_workbook. apply quiet_bind; [auto with extractor|]. intros s.
  apply quiet_bind; [|intros _; by apply quiet_logging].
  apply quiet_with_ExcelWriter; [done..|].
  apply quiet_for_each, quiet_save_year.
Qed.

Lemma quiet_save_consolidated_file : quietly write_event save_consolidated_file.
Proof.
  unfold save_consolidated_file.
  apply quiet_bind; [auto with extractor|]. intros s.
  apply quiet_try_except; [apply quiet_write_workbook|].
  intros e. by apply quiet_logging.
Qed.

Lemma save_consolidated_file_cases st :
  let attempt := write_workbook (output_file (self st)) st in
  save_consolidated_file st =
  match result attempt with
  | Ok _ => attempt
  | Raise e =>
      {| result := Ok tt;
         final := final attempt;
         emitted :=
           emitted attempt ++
           [Log ERROR ("Erro ao salvar arquivo consolidado: " +:+ exc_str e)]
      |}
  end.
Proof.
  cbv zeta. unfold save_consolidated_file.
  erewrite bind_step by reflexivity. rewrite after_nil.
  unfold try_except. cbv zeta.
  by destruct (result (write_workbook (output_file (self st)) st)).
Qed.

(** C6: [save_consolidated_file] always returns normally and leaves the
    extractor as it was; when the [try] block raises, the method ends
    where the block stopped, adds one error record with [str(e)] to what
    the block had done, and still returns [None] as on success. *)
Theorem save_consolidated_file_never_raises st :
  let attempt := write_workbook (output_file (self st)) st in
  let o := save_consolidated_file st in
  result o = Ok tt /\
  self (final o) = self st /\
  (forall e,
      result attempt = Raise e ->
      final o = final attempt /\
      emitted o =
        emitted attempt ++
        [Log ERROR ("Erro ao salvar arquivo consolidado: " +:+ exc_str e)]) /\
  (result attempt = Ok tt -> o = attempt).
Proof.
  cbv zeta. split; [|split; [apply quiet_save_consolidated_file|]].
  all: rewrite save_consolidated_file_cases; cbv zeta;
    destruct (result (write_workbook (output_file (self st)) st))
      as [[]|e] eqn:Hres.
  - exact Hres.
  - reflexivity.
  - split; [intros e [=] | done].
  - split; [|intros [=]]. intros e' [= <-]. by cbn.
Qed.

(** *** The sheets of [save_consolidated_file] *)

Lemma save_year_events st year :
  let d := data_by_year (self st) in
  let o := save_year year st in
  emitted o `prefix_of` year_events d year /\
  (result o = Ok tt -> emitted o = year_events d year /\ year_written d year).
Proof.
  cbv zeta. unfold save_year, year_events, year_written, bind, bucket_of.
  cbv zeta.
  destruct (data_by_year (self st) !! year) as [[|df dfs]|];
    cbn [result final emitted].
  - split; [done|]. by cbn.
  - unfold call_value, call_world, logging, after.
    destruct (pd_concat (df :: dfs) true) as [e|df_year];
      cbn [result final emitted app].
    + split; [done | intros [=]].
    + destruct (df_to_excel (world st) df_year (str year) false)
        as [w [e|]]; cbn [result final emitted app].
      * split; [|intros [=]]. by eexists [_].
      * split; [done|]. eauto.
  - split; [done | intros [=]].
Qed.

Lemma save_loop_events (ys : list Z) st :
  let d := data_by_year (self st) in
  let o := for_each ys save_year st in
  emitted o `prefix_of` (ys ≫= year_events d) /\
  (result o = Ok tt ->
   emitted o = ys ≫= year_events d /\
   forall year, year ∈ ys -> year_written d year).
Proof.
  cbv zeta. revert st. induction ys as [|y ys IH]; intros st.
  - cbn. split; [done|]. intros _. split; [done|].
    intros year Hin. by apply elem_of_nil in Hin.
  - cbn [for_each]. unfold bind. cbv zeta.
    destruct (save_year_events st y) as [Hpre Hok]. cbv zeta in Hpre, Hok.
    destruct (quiet_save_year y st) as [Hself _].
    rewrite bind_cons.
    destruct (result (save_year y st)) as [[]|e]; cbn [result final emitted].
    + destruct (Hok eq_refl) as [Hev Hdone].
      destruct (IH (final (save_year y st))) as [Hpre' Hok'].
      rewrite Hself in Hpre', Hok'. unfold after. cbn [result emitted].
      rewrite Hev. split; [by apply prefix_app|].
      intros Hres. destruct (Hok' Hres) as [Hev' Hall]. split.
      * by rewrite Hev'.
      * intros year [->|Hin]%elem_of_cons; auto.
    + split; [by apply prefix_app_r | intros [=]].
Qed.

Lemma with_ExcelWriter_cases path engine (body : M Scalar World unit) st :
  let opened := ExcelWriter_open (world st) path engine in
  let o := body (set_world opened.1 st) in
  let closed := ExcelWriter_close (world (final o)) path in
  with_ExcelWriter path engine body st =
  match opened.2 with
  | Some e =>
      {| result := Raise e; final := set_world opened.1 st;
         emitted := [ExcelWriterOpen path engine] |}
  | None =>
      {| result :=
           match result o, closed.2 with
           | Ok _, None => Ok tt
           | Raise e, None => Raise e
           | _, Some e => Raise e
           end;
         final := set_world closed.1 (final o);
         emitted :=
           ExcelWriterOpen path engine :: emitted o ++
           [ExcelWriterClose path] |}
  end.
Proof.
  unfold with_ExcelWriter, bind, call_world, after. cbv zeta.
  destruct (ExcelWriter_open (world st) path engine) as [w [e|]];
    cbn [result final emitted fst snd]; [reflexivity|].
  destruct (ExcelWriter_close _ path) as [w' [e'|]];
    cbn [result final emitted fst snd];
    by destruct (result (body (set_world w st))) as [[]|e].
Qed.

Lemma then_logging {A} (m : M Scalar World A) level msg st :
  (m;; logging level msg) st =
  match result (m st) with
  | Ok _ =>
      {| result := Ok tt; final := final (m st);
         emitted := emitted (m st) ++ [Log level msg] |}
  | Raise e =>
      {| result := Raise e; final := final (m st);
         emitted := emitted (m st) |}
  end.
Proof. unfold bind. cbv zeta. by destruct (result (m st)). Qed.

(** The [try] block of [save_consolidated_file], step by step. *)
Lemma write_workbook_events st :
  let f := output_file (self st) in
  let ys := years (config (self st)) in
  let d := data_by_year (self st) in
  let o := write_workbook f st in
  (exists loop tail,
      emitted o = ExcelWriterOpen f "openpyxl" :: loop ++ tail /\
      loop `prefix_of` (ys ≫= year_events d) /\
      Forall (fun ev => forall df sheet index, ev <> ToExcel df sheet index)
        tail) /\
  (result o = Ok tt ->
   emitted o =
     ExcelWriterOpen f "openpyxl" :: (ys ≫= year_events d) ++
     [ExcelWriterClose f;
      Log INFO ("Arquivo consolidado salvo em: " +:+ f)] /\
   forall year, year ∈ ys -> year_written d year).
Proof.
  cbv zeta. unfold write_workbook.
  erewrite bind_step by reflexivity. rewrite after_nil.
  pose proof (with_ExcelWriter_cases (output_file (self st)) "openpyxl"
                (for_each (years (config (self st))) save_year) st) as Hw.
  rewrite then_logging.
  cbv zeta in Hw. rewrite Hw. clear Hw.
  destruct (ExcelWriter_open (world st) _ _) as [w [e|]];
    cbn [result final emitted fst snd].
  - split; [|intros [=]]. exists [], []. repeat split; [apply prefix_nil|done].
  - destruct (save_loop_events (years (config (self st))) (set_world w st))
      as [Hpre Hok]. cbv zeta in Hpre, Hok.
    change (data_by_year (self (set_world w st)))
      with (data_by_year (self st)) in Hpre, Hok.
    set (loop := for_each (years (config (self st))) save_year
                   (set_world w st)) in *.
    destruct (result loop) as [[]|e];
      destruct (ExcelWriter_close _ _) as [w' [e'|]];
      cbn [result final emitted app fst snd].
    + split; [|intros [=]].
      exists (emitted loop), [ExcelWriterClose (output_file (self st))].
      repeat split; [done|]. by repeat constructor.
    + destruct (Hok eq_refl) as [Hev Hall]. split.
      * exists (emitted loop),
          [ExcelWriterClose (output_file (self st));
           Log INFO
             ("Arquivo consolidado salvo em: " +:+ output_file (self st))].
        split; [by rewrite <- app_assoc|]. split; [done|].
        by repeat constructor.
      * intros _. split; [|done]. by rewrite <- app_assoc, Hev.
    + split; [|intros [=]].
      exists (emitted loop), [ExcelWriterClose (output_file (self st))].
      repeat split; [done|]. by repeat constructor.
    + split; [|intros [=]].
      exists (emitted loop), [ExcelWriterClose (output_file (self st))].
      repeat split; [done|]. by repeat constructor.
Qed.

(** C3: [save_consolidated_file] opens the writer and goes through the
    configured years in list order, doing for each what [year_events]
    says: a warning and nothing else for an empty bucket, and for a bucket
    with tables their concatenation with the index reset, written as the
    sheet named [str(year)].  What it did is always an initial piece of
    that sequence, and all of it when the [try] block does not raise; and
    no sheet named after a year with an empty bucket is ever written. *)
Theorem save_consolidated_file_sheets st :
  let f := output_file (self st) in
  let ys := years (config (self st)) in
  let d := data_by_year (self st) in
  let o := save_consolidated_file st in
  (exists loop tail,
      emitted o = ExcelWriterOpen f "openpyxl" :: loop ++ tail /\
      loop `prefix_of` (ys ≫= year_events d) /\
      Forall (fun ev => forall df sheet index, ev <> ToExcel df sheet index)
        tail) /\
  (result (write_workbook f st) = Ok tt ->
   emitted o =
     ExcelWriterOpen f "openpyxl" :: (ys ≫= year_events d) ++
     [ExcelWriterClose f;
      Log INFO ("Arquivo consolidado salvo em: " +:+ f)] /\
   forall year, year ∈ ys -> year_written d year) /\
  (forall year,
      d !! year = Some [] ->
      year_events d year =
        [Log WARNING ("Nenhum dado encontrado para o ano " +:+ str year)] /\
      forall df index, ToExcel df (str year) index ∉ emitted o).
Proof.
  cbv zeta.
  destruct (write_workbook_events st) as [Hshape Hdone].
  cbv zeta in Hshape, Hdone.
  assert (exists loop tail,
             emitted (save_consolidated_file st) =
               ExcelWriterOpen (output_file (self st)) "openpyxl" ::
               loop ++ tail /\
             loop `prefix_of`
               (years (config (self st))
                  ≫= year_events (data_by_year (self st))) /\
             Forall
               (fun ev => forall df sheet index, ev <> ToExcel df sheet index)
               tail) as Hsave.
  { destruct Hshape as (loop & tail & Hev & Hpre & Htail).
    rewrite save_consolidated_file_cases. cbv zeta.
    destruct (result (write_workbook (output_file (self st)) st)) as [[]|e].
    - by exists loop, tail.
    - exists loop, (tail ++ [Log ERROR
                              ("Erro ao salvar arquivo consolidado: "
                               +:+ exc_str e)]).
      cbn [emitted]. rewrite Hev. split; [by rewrite app_assoc|].
      split; [done|]. apply Forall_app. split; [done|].
      by repeat constructor. }
  split; [exact Hsave|]. split.
  - intros Hres. rewrite save_consolidated_file_cases. cbv zeta.
    rewrite Hres. by apply Hdone.
  - intros year Hempty. split; [unfold year_events; by rewrite Hempty|].
    intros df index Hin.
    destruct Hsave as (loop & tail & Hev & [rest Hpre] & Htail).
    rewrite Hev in Hin.
    apply elem_of_cons in Hin as [Hin|Hin]; [done|].
    apply elem_of_app in Hin as [Hin|Hin].
    + assert (ToExcel df (str year) index
                ∈ years (config (self st))
                    ≫= year_events (data_by_year (self st))) as Hall.
      { rewrite Hpre. apply elem_of_app. by left. }
      apply list_elem_of_bind in Hall as (other & Hev' & _).
      unfold year_events in Hev'.
      destruct (data_by_year (self st) !! other) as [[|t ts]|] eqn:Hother.
      * by apply list_elem_of_singleton in Hev'.
      * destruct (pd_concat (t :: ts) true) as [e|df_year].
        -- by apply list_elem_of_singleton in Hev'.
        -- apply elem_of_cons in Hev' as [Heq|Hev']; [done|].
           apply elem_of_cons in Hev' as [Heq|Hev'].
           ++ injection Heq as _ Hstr _. apply str_inj in Hstr. congruence.
           ++ by apply list_elem_of_singleton in Hev'.
      * by apply elem_of_nil in Hev'.
    + rewrite Forall_forall in Htail. by eapply Htail.
Qed.

(** *** [process_files] on an extractor with all its buckets *)

Lemma process_file_ok st (file_info : string * string) :
  keys_ok st ->
  let o := process_file file_info st in
  result o = Ok tt /\ keys_ok (final o).
Proof.
  intros Hkeys. destruct file_info as [file_path description]. cbv zeta.
  pose proof (process_file_cases st file_path description) as Hcases.
  cbv zeta in Hcases.
  destruct (negb (str_truthy file_path)); [by rewrite Hcases|].
  destruct (negb (os_path_exists (world st) file_path));
    [by rewrite Hcases|].
  destruct (result (extract_data_from_file (file_path, description) st))
    as [[df|]|e]; [|by rewrite Hcases|done].
  rewrite Hcases, add_to_year_cases.
  destruct (find _ (years (config (self st)))) as [first|] eqn:Hfind;
    [|done].
  pose proof (find_some _ _ Hfind) as [Hin _].
  apply list_elem_of_In in Hin.
  destruct (Hkeys first Hin) as [bucket Hbucket]. rewrite Hbucket.
  cbn. split; [done|]. intros year Hyear. cbn in *.
  destruct (decide (first = year)) as [->|Hne].
  - rewrite lookup_insert_eq. eauto.
  - rewrite lookup_insert_ne by done. by apply Hkeys.
Qed.

Lemma for_each_process_file_ok (files : list (string * string)) st :
  keys_ok st ->
  let o := for_each files process_file st in
  result o = Ok tt /\ keys_ok (final o).
Proof.
  cbv zeta. revert st. induction files as [|entry files IH]; intros st Hkeys.
  - by cbn.
  - destruct (process_file_ok st entry Hkeys) as [Hres Hkeys'].
    cbv zeta in Hres, Hkeys'. cbn [for_each].
    rewrite (bind_Ok _ _ _ tt Hres). cbn [after result final].
    by apply IH.
Qed.

Lemma process_files_ok st :
  keys_ok st ->
  result (process_files st) = Ok tt /\ keys_ok (final (process_files st)).
Proof.
  intros Hkeys. rewrite process_files_loop.
  by apply for_each_process_file_ok.
Qed.

(** *** [_create_output_directory] and [run] *)

Lemma _create_output_directory_cases st :
  let folder := output_folder (self st) in
  _create_output_directory st =
  if os_path_exists (world st) folder then
    {| result := Ok tt; final := st; emitted := [OsPathExists folder] |}
  else
    match os_makedirs (world st) folder with
    | (w, None) =>
        {| result := Ok tt;
           final := set_world w st;
           emitted :=
             [OsPathExists folder; OsMakedirs folder;
              Log INFO ("Diretório criado: " +:+ folder)] |}
    | (w, Some e) =>
        {| result := Raise e;
           final := set_world w st;
           emitted := [OsPathExists folder; OsMakedirs folder] |}
    end.
Proof.
  cbv zeta. unfold _create_output_directory.
  erewrite bind_step by reflexivity. rewrite after_nil.
  erewrite bind_step by reflexivity.
  destruct (os_path_exists (world st) (output_folder (self st)));
    cbn [negb]; [reflexivity|].
  unfold bind, call_world, logging, after. cbv zeta.
  by destruct (os_makedirs (world st) (output_folder (self st))) as [w [e|]].
Qed.

Lemma _create_output_directory_self st :
  self (final (_create_output_directory st)) = self st.
Proof.
  rewrite _create_output_directory_cases. cbv zeta.
  destruct (os_path_exists _ _); [done|].
  by destruct (os_makedirs _ _) as [w [e|]].
Qed.

Lemma bind_assoc {A B C} (m : M Scalar World A) (k : A -> M Scalar World B)
    (l : B -> M Scalar World C) st :
  bind (bind m k) l st = bind m (fun a => bind (k a) l) st.
Proof.
  unfold bind. cbv zeta.
  destruct (result (m st)) as [a|e]; cbn [result final emitted after];
    [|reflexivity].
  destruct (result (k a (final (m st)))) as [b|e];
    cbn [result final emitted after]; [|reflexivity].
  by rewrite after_after.
Qed.

Lemma bind_ext {A B} (m : M Scalar World A) (k k' : A -> M Scalar World B)
    st :
  (forall a st', k a st' = k' a st') -> bind m k st = bind m k' st.
Proof.
  intros Hk. unfold bind. cbv zeta.
  destruct (result (m st)); [by rewrite Hk | reflexivity].
Qed.

Lemma any_path_false (files : list (string * string)) :
  any_path files = false <-> Forall (fun entry => entry.1 = "") files.
Proof.
  unfold any_path. induction files as [|entry files IH]; cbn [existsb].
  - split; [constructor | done].
  - rewrite orb_false_iff, IH, Forall_cons, str_truthy_false. done.
Qed.

Lemma any_path_true (files : list (string * string)) :
  any_path files = true <-> Exists (fun entry => entry.1 <> "") files.
Proof.
  unfold any_path. induction files as [|entry files IH]; cbn [existsb].
  - split; [done | by intros ?%Exists_nil].
  - rewrite orb_true_iff, IH, Exists_cons.
    assert (str_truthy entry.1 = true <-> entry.1 <> "") as ->; [|done].
    rewrite <- str_truthy_false. by destruct (str_truthy entry.1).
Qed.

(** The part of [run] after the guard. *)
Lemma run_cases st :
  let start := Log INFO "Iniciando processamento dos arquivos PCAT" in
  run st =
  if any_path (files_to_process (self st)) then
    after [start]
      (((_create_output_directory;; process_files;; save_consolidated_file);;
        logging INFO "Processamento concluído com sucesso!") st)
  else
    {| result := Ok tt; final := st;
       emitted :=
         [start;
          Log ERROR "Nenhum arquivo configurado para processamento"] |}.
Proof.
  cbv zeta. unfold run.
  erewrite bind_step by reflexivity.
  erewrite bind_step by reflexivity. rewrite after_nil.
  destruct (any_path (files_to_process (self st))); cbn [negb];
    [|reflexivity].
  f_equal. rewrite bind_assoc. apply bind_ext. intros _ st'.
  by rewrite bind_assoc.
Qed.

(** C7: when every configured entry has an empty path, [run] logs the
    start and an error and returns with nothing else done or changed.
    Otherwise it makes sure of the output directory, then processes the
    files, then saves, whatever the files gave, and ends with the success
    record: it returns normally whenever the directory step does not raise
    (for an extractor with all its buckets), and whenever it returns
    normally the success record is the last thing it logged. *)
Theorem run_behaviour st :
  let start := Log INFO "Iniciando processamento dos arquivos PCAT" in
  let success := Log INFO "Processamento concluído com sucesso!" in
  let o := run st in
  (Forall (fun entry => entry.1 = "") (files_to_process (self st)) ->
   o = {| result := Ok tt; final := st;
          emitted :=
            [start;
             Log ERROR "Nenhum arquivo configurado para processamento"] |}) /\
  (Exists (fun entry => entry.1 <> "") (files_to_process (self st)) ->
   let o1 := _create_output_directory st in
   let o2 := process_files (final o1) in
   let o3 := save_consolidated_file (final o2) in
   (keys_ok st ->
    result o1 = Ok tt ->
    result o2 = Ok tt /\
    result o3 = Ok tt /\
    o = {| result := Ok tt; final := final o3;
           emitted :=
             start :: emitted o1 ++ emitted o2 ++ emitted o3 ++ [success] |}) /\
   (result o = Ok tt -> last (emitted o) = Some success) /\
   (forall e, result o1 = Raise e -> result o = Raise e)).
Proof.
  cbv zeta. split.
  - intros Hnone%any_path_false. by rewrite run_cases, Hnone.
  - intros Hsome%any_path_true. rewrite run_cases, Hsome. cbv zeta.
    split; [|split].
    + intros Hkeys Hdir.
      assert (keys_ok (final (_create_output_directory st))) as Hkeys1.
      { intros year. rewrite _create_output_directory_self. apply Hkeys. }
      destruct (process_files_ok _ Hkeys1) as [Hfiles _].
      pose proof (save_consolidated_file_cases
                    (final (process_files
                              (final (_create_output_directory st)))))
        as Hsave.
      assert (result (save_consolidated_file
                        (final (process_files
                                  (final (_create_output_directory st)))))
              = Ok tt) as Hsaved.
      { rewrite Hsave. cbv zeta.
        by destruct (result (write_workbook _ _)) as [[]|e] eqn:Hw. }
      split; [done|]. split; [done|].
      rewrite then_logging, (bind_Ok _ _ _ tt Hdir).
      cbn [after result final emitted].
      rewrite (bind_Ok _ _ _ tt Hfiles). cbn [after result final emitted].
      rewrite Hsaved. unfold after. cbn [result final emitted app].
      by rewrite <- !app_assoc.
    + rewrite then_logging.
      destruct (result ((_create_output_directory;; process_files;;
                         save_consolidated_file) st));
        cbn [after result emitted]; [|intros [=]].
      intros _. by rewrite app_assoc, last_snoc.
    + intros e Hdir. rewrite then_logging.
      rewrite (bind_Raise _ _ _ e Hdir). by cbn.
Qed.

(** C9 (amended): [save_consolidated_file] never calls [os.makedirs].
    The directory is made by [_create_output_directory], which [run] calls
    first: it only looks when the folder exists, and otherwise calls
    [os.makedirs] once and logs the creation, or lets the exception of
    [os.makedirs] out. *)
Theorem output_directory_created_before_save st :
  let folder := output_folder (self st) in
  let o := _create_output_directory st in
  (forall path, OsMakedirs path ∉ emitted (save_consolidated_file st)) /\
  (os_path_exists (world st) folder = true ->
   o = {| result := Ok tt; final := st; emitted := [OsPathExists folder] |}) /\
  (os_path_exists (world st) folder = false ->
   match os_makedirs (world st) folder with
   | (w, None) =>
       o = {| result := Ok tt;
              final := set_world w st;
              emitted :=
                [OsPathExists folder; OsMakedirs folder;
                 Log INFO ("Diretório criado: " +:+ folder)] |}
   | (w, Some e) =>
       o = {| result := Raise e;
              final := set_world w st;
              emitted := [OsPathExists folder; OsMakedirs folder] |}
   end) /\
  (Exists (fun entry => entry.1 <> "") (files_to_process (self st)) ->
   exists rest,
     emitted (run st) =
     Log INFO "Iniciando processamento dos arquivos PCAT" ::
     emitted o ++ rest).
Proof.
  cbv zeta. split; [|split; [|split]].
  - intros path Hin.
    destruct (quiet_save_consolidated_file st) as [_ Hev].
    rewrite Forall_forall in Hev. exact (Hev _ Hin).
  - intros Hthere. by rewrite _create_output_directory_cases, Hthere.
  - intros Habsent. rewrite _create_output_directory_cases, Habsent.
    by destruct (os_makedirs _ _) as [w [e|]].
  - intros Hsome%any_path_true. rewrite run_cases, Hsome.
    rewrite then_logging.
    assert (exists rest,
               emitted ((_create_output_directory;; process_files;;
                         save_consolidated_file) st)
               = emitted (_create_output_directory st) ++ rest)
      as [rest Hrest].
    { unfold bind at 1. cbv zeta.
      destruct (result (_create_output_directory st)); cbn [after emitted].
      - eauto.
      - exists []. by rewrite app_nil_r. }
    destruct (result ((_create_output_directory;; process_files;;
                       save_consolidated_file) st));
      cbn [after emitted app]; rewrite Hrest.
    + exists (rest ++ [Log INFO "Processamento concluído com sucesso!"]).
      by rewrite app_assoc.
    + by exists rest.
Qed.
End Properties.

(** ** The properties on the small runtime *)

Lemma demo_keys_ok : keys_ok Demo.start.
Proof.
  intros year Hin. exists [].
  exact (empty_buckets_lookup (Scalar := Z) _ _ Hin).
Defined.

(** The 2020 file of the demonstration lands in the bucket of 2020 and
    leaves the bucket of 2021 alone. *)
Lemma process_file_first_matching_year_witness :
  result (process_file ("/data/PCAT_2020.xlsx", "PCAT 2020") Demo.start)
    = Ok tt /\
  (exists bucket,
      data_by_year (self Demo.start) !! 2020 = Some bucket /\
      data_by_year
        (self (final (process_file ("/data/PCAT_2020.xlsx", "PCAT 2020")
                        Demo.start))) !! 2020
      = Some (bucket ++ [Demo.table_2020])) /\
  data_by_year
    (self (final (process_file ("/data/PCAT_2020.xlsx", "PCAT 2020")
                    Demo.start))) !! 2021
  = data_by_year (self Demo.start) !! 2021.
Proof.
  destruct (process_file_first_matching_year Demo.start
              "/data/PCAT_2020.xlsx" "PCAT 2020" Demo.table_2020
              demo_keys_ok ltac:(vm_compute; reflexivity) ltac:(vm_compute; reflexivity)
              ltac:(vm_compute; reflexivity))
    as (Hres & _ & Hone).
  specialize (Hone 2020). destruct Hone as [Hbucket Hothers].
  - cbn. set_solver.
  - reflexivity.
  - intros other Hin Hmatch. cbn in Hin.
    apply elem_of_cons in Hin as [->|Hin]; [reflexivity|].
    apply list_elem_of_singleton in Hin as ->. vm_compute in Hmatch.
    discriminate.
  - split; [exact Hres|]. split; [exact Hbucket|]. by apply Hothers.
Defined.

(** The file without a year is read and then dropped. *)
Lemma process_file_without_year_dropped_witness :
  final (process_file ("/data/PCAT.xlsx", "PCAT sem ano") Demo.start)
    = Demo.start /\
  emitted (process_file ("/data/PCAT.xlsx", "PCAT sem ano") Demo.start) =
    [OsPathExists "/data/PCAT.xlsx";
     Log INFO "Processando arquivo: PCAT sem ano";
     ReadExcel "/data/PCAT.xlsx" "EFEITO" "AI:AV" 11 0].
Proof.
  destruct (process_file_without_year_dropped Demo.start
              "/data/PCAT.xlsx" "PCAT sem ano"
              (tagged "PCAT sem ano" "/data/PCAT.xlsx" Demo.region)
              ltac:(vm_compute; reflexivity) ltac:(vm_compute; reflexivity) ltac:(vm_compute; reflexivity))
    as (_ & Hfinal & Hev & _).
  - intros year Hin. cbn in Hin.
    apply elem_of_cons in Hin as [->|Hin]; [reflexivity|].
    apply list_elem_of_singleton in Hin as ->. reflexivity.
  - split; [exact Hfinal | exact Hev].
Defined.

(** After the demonstration's files the workbook gets the sheet of 2020 and
    a warning for 2021, whose sheet is never written. *)
Lemma save_consolidated_file_sheets_witness :
  emitted (save_consolidated_file Demo.processed) =
    ExcelWriterOpen
      "/home/user/resultados_efeito/PCAT_Efeito_Consolidado.xlsx" "openpyxl" ::
    [Concat [Demo.table_2020] true;
     ToExcel Demo.table_2020 "2020" false;
     Log INFO "Dados do ano 2020 salvos com sucesso";
     Log WARNING "Nenhum dado encontrado para o ano 2021"] ++
    [ExcelWriterClose
       "/home/user/resultados_efeito/PCAT_Efeito_Consolidado.xlsx";
     Log INFO
       "Arquivo consolidado salvo em: /home/user/resultados_efeito/PCAT_Efeito_Consolidado.xlsx"] /\
  forall df index,
    ToExcel df "2021" index ∉ emitted (save_consolidated_file Demo.processed).
Proof.
  destruct (save_consolidated_file_sheets Demo.processed)
    as (_ & Hdone & Hempty).
  split.
  - destruct (Hdone ltac:(vm_compute; reflexivity)) as [Hev _]. exact Hev.
  - intros df index.
    destruct (Hempty 2021 ltac:(vm_compute; reflexivity)) as [_ Hnone]. apply Hnone.
Defined.

(** The 2020 file of the demonstration is read with the configured
    rectangle and gets its two columns. *)
Lemma extract_data_from_file_success_witness :
  result (extract_data_from_file ("/data/PCAT_2020.xlsx", "PCAT 2020")
            Demo.start)
    = Ok (Some Demo.table_2020) /\
  emitted (extract_data_from_file ("/data/PCAT_2020.xlsx", "PCAT 2020")
             Demo.start)
    = [ReadExcel "/data/PCAT_2020.xlsx" "EFEITO" "AI:AV" 11 0].
Proof.
  destruct (extract_data_from_file_success Demo.start
              "/data/PCAT_2020.xlsx" "PCAT 2020" Demo.table_2020)
    as [[_ Hback] Hev].
  assert (result (extract_data_from_file
                    ("/data/PCAT_2020.xlsx", "PCAT 2020") Demo.start)
          = Ok (Some Demo.table_2020)) as Hres.
  { apply Hback. exists Demo.region. repeat split; reflexivity. }
  split; [exact Hres | exact (Hev Hres)].
Defined.

(** A sheet that is not there: the error is logged and the entry is over. *)
Lemma extraction_failure_logged_and_skipped_witness :
  process_file ("/data/PCAT_2020.xlsx", "PCAT 2020") Demo.other_sheet =
  {| result := Ok tt;
     final := Demo.other_sheet;
     emitted :=
       [OsPathExists "/data/PCAT_2020.xlsx";
        Log INFO "Processando arquivo: PCAT 2020";
        ReadExcel "/data/PCAT_2020.xlsx" "RESUMO" "AI:AV" 11 0;
        Log ERROR
          "Erro ao processar PCAT 2020 (/data/PCAT_2020.xlsx): Worksheet named 'RESUMO' not found"]
  |}.
Proof.
  assert (result (read_and_tag ("/data/PCAT_2020.xlsx", "PCAT 2020")
                    Demo.other_sheet)
          = Raise (ValueError "Worksheet named 'RESUMO' not found")) as Hraise
    by reflexivity.
  destruct (extraction_failure_logged_and_skipped Demo.other_sheet
              "/data/PCAT_2020.xlsx" "PCAT 2020" _ [] Hraise)
    as [_ Hloop].
  destruct (Hloop ltac:(vm_compute; reflexivity) ltac:(vm_compute; reflexivity)) as [Hfile _].
  exact Hfile.
Defined.

(** Without the output directory the writer cannot open; the method logs
    that and returns. *)
Lemma save_consolidated_file_never_raises_witness :
  result (save_consolidated_file Demo.start) = Ok tt /\
  emitted (save_consolidated_file Demo.start) =
    [ExcelWriterOpen
       "/home/user/resultados_efeito/PCAT_Efeito_Consolidado.xlsx" "openpyxl";
     Log ERROR
       "Erro ao salvar arquivo consolidado: Cannot save file into a non-existent directory"].
Proof.
  destruct (save_consolidated_file_never_raises Demo.start)
    as (Hres & _ & Hraise & _).
  split; [exact Hres|].
  destruct (Hraise
              {| exc_class := "OSError";
                 exc_str := "Cannot save file into a non-existent directory" |}
              ltac:(vm_compute; reflexivity))
    as [_ Hev].
  exact Hev.
Defined.

(** [run] with no path at all, and [run] on the demonstration's files. *)
Lemma run_behaviour_witness :
  run Demo.idle =
    {| result := Ok tt;
       final := Demo.idle;
       emitted :=
         [Log INFO "Iniciando processamento dos arquivos PCAT";
          Log ERROR "Nenhum arquivo configurado para processamento"] |} /\
  result (run Demo.start) = Ok tt /\
  last (emitted (run Demo.start))
    = Some (Log INFO "Processamento concluído com sucesso!").
Proof.
  split.
  - destruct (run_behaviour Demo.idle) as [Hidle _]. apply Hidle.
    by repeat constructor.
  - destruct (run_behaviour Demo.start) as [_ Hrun].
    destruct Hrun as (Hall & Hlast & _).
    { apply Exists_cons_tl, Exists_cons_hd. discriminate. }
    destruct (Hall demo_keys_ok ltac:(vm_compute; reflexivity)) as (_ & _ & Hrun).
    assert (result (run Demo.start) = Ok tt) as Hres by (by rewrite Hrun).
    split; [exact Hres | exact (Hlast Hres)].
Defined.

(** The first two entries of the demonstration: no path, then a path that
    is not on the disk. *)
Lemma process_files_skips_entry_witness :
  for_each Demo.files process_file Demo.start =
  after
    [OsPathExists "/data/PCAT_2019.xlsx";
     Log ERROR "Arquivo não encontrado: /data/PCAT_2019.xlsx"]
    (for_each (drop 2 Demo.files) process_file Demo.start).
Proof.
  destruct (process_files_skips_entry Demo.start "" "sem caminho"
              (drop 1 Demo.files))
    as (_ & Hempty & _).
  destruct (Hempty eq_refl) as [_ Hskip].
  destruct (process_files_skips_entry Demo.start "/data/PCAT_2019.xlsx"
              "PCAT 2019" (drop 2 Demo.files))
    as (_ & _ & Hmissing).
  destruct (Hmissing ltac:(discriminate) ltac:(vm_compute; reflexivity)) as [_ Hnext].
  etransitivity; [exact Hskip | exact Hnext].
Defined.

(** C9 as stated fails: started without the output directory,
    [save_consolidated_file] only tries to open the writer, which fails; it
    does not call [os.makedirs] and the directory is still missing when it
    returns. *)
Lemma save_consolidated_file_does_not_create_directory :
  os_path_exists (world Demo.start) (output_folder (self Demo.start))
    = false /\
  emitted (save_consolidated_file Demo.start) =
    [ExcelWriterOpen
       "/home/user/resultados_efeito/PCAT_Efeito_Consolidado.xlsx" "openpyxl";
     Log ERROR
       "Erro ao salvar arquivo consolidado: Cannot save file into a non-existent directory"] /\
  os_path_exists (world (final (save_consolidated_file Demo.start)))
    (output_folder (self Demo.start))
    = false.
Proof. repeat split; reflexivity. Qed.

(** On the same start [_create_output_directory] makes the directory. *)
Lemma output_directory_created_before_save_witness :
  _create_output_directory Demo.start =
    {| result := Ok tt;
       final :=
         set_world
           {| Demo.paths :=
                "/home/user/resultados_efeito" :: Demo.paths Demo.disk;
              Demo.book := [] |}
           Demo.start;
       emitted :=
         [OsPathExists "/home/user/resultados_efeito";
          OsMakedirs "/home/user/resultados_efeito";
          Log INFO "Diretório criado: /home/user/resultados_efeito"] |} /\
  forall path, OsMakedirs path ∉ emitted (save_consolidated_file Demo.start).
Proof.
  destruct (output_directory_created_before_save Demo.start)
    as (Hnever & _ & Habsent & _).
  split; [|exact Hnever]. exact (Habsent ltac:(vm_compute; reflexivity)).
Defined.

(** ** Further properties: the whole of [process_files], the write step
    without tables, [__init__] and the entry point *)

Section Coverage.
Context {Scalar World : Type} `{!Runtime Scalar World}.
Abbreviation St := (State Scalar World).
Abbreviation Table := (DataFrame Scalar).
Implicit Types (st : St) (df : Table) (e : Exception).
Implicit Types (d : gmap Z (list Table)) (entry : string * string).

(** *** Extraction as a function of configuration and world *)

Lemma read_and_tag_extracted st file_path description :
  result (read_and_tag (file_path, description) st) =
  match extracted (config (self st)) (world st) file_path description with
  | Ok df => Ok (Some df)
  | Raise e => Raise e
  end.
Proof.
  unfold read_and_tag, extracted, bind, get_self, call_value, lift, ret, after.
  cbv zeta. cbn [result final emitted].
  destruct (pd_read_excel _ _ _ _ _ _) as [e|region];
    cbn [result final emitted]; [reflexivity|].
  destruct (df_insert 0 _ _ region) as [df1|e1];
    cbn [result final emitted]; [|reflexivity].
  by destruct (df_insert 1 _ _ df1) as [df2|e2].
Qed.

Lemma extract_data_from_file_extracted st file_path description :
  extract_data_from_file (file_path, description) st =
  {| result :=
       match extracted (config (self st)) (world st) file_path description with
       | Ok df => Ok (Some df)
       | Raise _ => Ok None
       end;
     final := st;
     emitted :=
       read_call (config (self st)) file_path ::
       match extracted (config (self st)) (world st) file_path description with
       | Ok _ => []
       | Raise e =>
           [Log ERROR
              ("Erro ao processar " +:+ description +:+ " (" +:+ file_path
               +:+ "): " +:+ exc_str e)]
       end |}.
Proof.
  destruct (extract_data_from_file_cases st file_path description)
    as [Hfinal Hx]. cbv zeta in Hfinal, Hx.
  rewrite read_and_tag_extracted in Hx.
  destruct (extract_data_from_file (file_path, description) st)
    as [r f evs]. cbn [result final emitted] in *. subst f.
  destruct (extracted _ _ _ _); destruct Hx as [-> ->]; reflexivity.
Qed.

Lemma insert_as_alter d (year : Z) (bucket : list Table) df :
  d !! year = Some bucket ->
  <[year := bucket ++ [df]]> d = alter (fun b => b ++ [df]) year d.
Proof.
  intros Hbucket. apply map_eq. intros other.
  destruct (decide (year = other)) as [<-|Hne].
  - by rewrite lookup_insert_eq, lookup_alter_eq, Hbucket.
  - by rewrite lookup_insert_ne, lookup_alter_ne.
Qed.

(** One entry, on an extractor with all its buckets. *)
Lemma process_file_outcome st entry :
  keys_ok st ->
  process_file entry st =
  {| result := Ok tt;
     final :=
       match placed (config (self st)) (world st) entry with
       | Some _ =>
           set_data_by_year
             (add_table (data_by_year (self st))
                (placed (config (self st)) (world st) entry)) st
       | None => st
       end;
     emitted := entry_events (config (self st)) (world st) entry |}.
Proof.
  intros Hkeys. destruct entry as [file_path description].
  pose proof (process_file_cases st file_path description) as Hcases.
  cbv zeta in Hcases. unfold placed, entry_events. cbn [fst snd].
  destruct (str_truthy file_path); cbn [negb andb] in *; [|exact Hcases].
  destruct (os_path_exists (world st) file_path); cbn [negb] in *;
    [|exact Hcases].
  rewrite extract_data_from_file_extracted in Hcases.
  cbn [result emitted] in Hcases.
  destruct (extracted _ _ _ _) as [df|e]; [|exact Hcases].
  rewrite Hcases, add_to_year_cases.
  destruct (find _ (years (config (self st)))) as [year|] eqn:Hfind;
    [|reflexivity].
  pose proof (find_some _ _ Hfind) as [Hin _].
  apply list_elem_of_In in Hin.
  destruct (Hkeys year Hin) as [bucket Hbucket]. rewrite Hbucket.
  unfold after, add_table. cbn [result final emitted app].
  by rewrite (insert_as_alter _ _ _ _ Hbucket).
Qed.

Lemma keys_ok_add_table st slot :
  keys_ok st ->
  keys_ok (set_data_by_year (add_table (data_by_year (self st)) slot) st).
Proof.
  intros Hkeys year Hin. cbn in *. destruct slot as [[y df]|]; cbn.
  - apply lookup_alter_is_Some. by apply Hkeys.
  - by apply Hkeys.
Qed.

(** The loop of [process_files], on an extractor with all its buckets. *)
Lemma for_each_process_file_outcome (files : list (string * string)) st :
  keys_ok st ->
  let cfg := config (self st) in
  let o := for_each files process_file st in
  result o = Ok tt /\
  world (final o) = world st /\
  config (self (final o)) = cfg /\
  output_folder (self (final o)) = output_folder (self st) /\
  files_to_process (self (final o)) = files_to_process (self st) /\
  data_by_year (self (final o)) =
    foldl (fun d entry => add_table d (placed cfg (world st) entry))
      (data_by_year (self st)) files /\
  emitted o = files ≫= entry_events cfg (world st).
Proof.
  cbv zeta. revert st. induction files as [|entry files IH]; intros st Hkeys.
  - by cbn.
  - pose proof (process_file_outcome st entry Hkeys) as Hentry.
    rewrite (for_each_cons _ _ _ _ _ _ Hentry).
    cbn [after result final emitted foldl]. rewrite bind_cons.
    set (st' := match placed _ _ entry with Some _ => _ | None => st end).
    assert (keys_ok st' /\ world st' = world st /\
            config (self st') = config (self st) /\
            output_folder (self st') = output_folder (self st) /\
            files_to_process (self st') = files_to_process (self st) /\
            data_by_year (self st') =
              add_table (data_by_year (self st))
                (placed (config (self st)) (world st) entry))
      as (Hkeys' & Hw & Hc & Ho & Hf & Hd).
    { subst st'. destruct (placed _ _ entry) as [slot|] eqn:Hplaced.
      - split; [by apply keys_ok_add_table|]. by cbn.
      - by cbn. }
    destruct (IH st' Hkeys') as (Hres & Hw' & Hc' & Ho' & Hf' & Hd' & Hev).
    rewrite Hw, Hc, Hd in *.
    repeat split; try congruence.
Qed.

Lemma tables_for_cons (cfg : ExtractionConfig) (w : World) entry
    (files : list (string * string)) (year : Z) :
  tables_for cfg w (entry :: files) year =
  match placed cfg w entry with
  | Some (y, df) =>
      if bool_decide (y = year) then df :: tables_for cfg w files year
      else tables_for cfg w files year
  | None => tables_for cfg w files year
  end.
Proof.
  unfold tables_for. cbn [omap list_omap].
  destruct (placed cfg w entry) as [[y df]|]; [|reflexivity].
  by case_bool_decide.
Qed.

Lemma foldl_add_table_lookup (cfg : ExtractionConfig) (w : World)
    (files : list (string * string)) d (year : Z) :
  foldl (fun d entry => add_table d (placed cfg w entry)) d files !! year =
  (fun bucket => bucket ++ tables_for cfg w files year) <$> d !! year.
Proof.
  revert d. induction files as [|entry files IH]; intros d.
  - cbn [foldl]. destruct (d !! year); cbn; [by rewrite app_nil_r | done].
  - cbn [foldl]. rewrite IH, tables_for_cons.
    destruct (placed cfg w entry) as [[y df]|]; cbn [add_table]; [|done].
    case_bool_decide as Hy.
    + subst y. rewrite lookup_alter_eq.
      destruct (d !! year); cbn; [|done]. by rewrite <- app_assoc.
    + by rewrite lookup_alter_ne.
Qed.
(** *** The whole of [process_files] *)

(** X1: on an extractor with all its buckets, [process_files] leaves in
    every bucket what was there, followed by the tables of the entries that
    were given to that year, in the order of the file list; which entry
    gives which table to which year depends on the configuration and the
    world alone. *)
Theorem process_files_buckets st (year : Z) :
  keys_ok st ->
  data_by_year (self (final (process_files st))) !! year =
  (fun bucket =>
     bucket ++
     tables_for (config (self st)) (world st) (files_to_process (self st))
       year)
    <$> data_by_year (self st) !! year.
Proof.
  intros Hkeys. rewrite process_files_loop.
  destruct (for_each_process_file_outcome (files_to_process (self st)) st
              Hkeys) as (_ & _ & _ & _ & _ & Hd & _).
  cbv zeta in Hd. rewrite Hd. apply foldl_add_table_lookup.
Qed.

(** X2: on an extractor with all its buckets, [process_files] returns
    normally and its log records and library calls are those of the entries
    one after the other, each as if it were processed alone in the initial
    world. *)
Theorem process_files_events st :
  keys_ok st ->
  result (process_files st) = Ok tt /\
  emitted (process_files st) =
    files_to_process (self st)
      ≫= entry_events (config (self st)) (world st).
Proof.
  intros Hkeys. rewrite process_files_loop.
  destruct (for_each_process_file_outcome (files_to_process (self st)) st
              Hkeys) as (Hres & _ & _ & _ & _ & _ & Hev).
  by split.
Qed.

Lemma read_calls_entry_events (cfg : ExtractionConfig) (w : World) entry :
  read_calls (entry_events cfg w entry) =
  if str_truthy entry.1 && os_path_exists w entry.1
  then [read_call cfg entry.1] else [].
Proof.
  unfold entry_events.
  destruct (str_truthy entry.1); cbn [negb andb]; [|reflexivity].
  destruct (os_path_exists w entry.1); cbn [negb]; [|reflexivity].
  unfold read_calls, read_call. cbn [app List.filter].
  destruct (extracted _ _ _ _); [|reflexivity].
  by destruct (find _ _).
Qed.

(** X3: on an extractor with all its buckets, [process_files] calls
    [pd.read_excel] exactly once for every entry whose path is not empty and
    exists, in the order of the list and with the configured rectangle, and
    for no other entry. *)
Theorem process_files_reads_each_file_once st :
  keys_ok st ->
  read_calls (emitted (process_files st)) =
  (fun entry => read_call (config (self st)) entry.1) <$>
  List.filter
    (fun entry => str_truthy entry.1 && os_path_exists (world st) entry.1)
    (files_to_process (self st)).
Proof.
  intros Hkeys. rewrite process_files_loop.
  destruct (for_each_process_file_outcome (files_to_process (self st)) st
              Hkeys) as (_ & _ & _ & _ & _ & _ & Hev).
  cbv zeta in Hev. rewrite Hev. clear Hev.
  induction (files_to_process (self st)) as [|entry files IH]; [reflexivity|].
  rewrite bind_cons. unfold read_calls in *. rewrite List.filter_app.
  fold (read_calls (entry_events (config (self st)) (world st) entry)).
  rewrite read_calls_entry_events, IH. cbn [List.filter].
  by destruct (str_truthy entry.1 && os_path_exists (world st) entry.1).
Qed.

(** X4: [process_files] does not look at what the buckets hold.  Called a
    second time on the same extractor it makes the same calls and log
    records again and appends the same tables again, so every table is then
    twice in its bucket. *)
Theorem process_files_twice st (year : Z) :
  keys_ok st ->
  let once := process_files st in
  let twice := process_files (final once) in
  let added :=
    tables_for (config (self st)) (world st) (files_to_process (self st))
      year in
  result twice = Ok tt /\
  emitted twice = emitted once /\
  data_by_year (self (final twice)) !! year =
    (fun bucket => bucket ++ added ++ added) <$> data_by_year (self st) !! year.
Proof.
  intros Hkeys. cbv zeta.
  destruct (process_files_ok st Hkeys) as [_ Hkeys'].
  rewrite (process_files_loop (final (process_files st))).
  rewrite (process_files_loop st) in *.
  destruct (for_each_process_file_outcome (files_to_process (self st)) st
              Hkeys) as (_ & Hw & Hc & _ & Hf & Hd & Hev).
  cbv zeta in Hw, Hc, Hf, Hd, Hev.
  set (st1 := final (for_each (files_to_process (self st)) process_file st))
    in *.
  destruct (for_each_process_file_outcome (files_to_process (self st1)) st1
              Hkeys') as (Hres' & _ & _ & _ & _ & Hd' & Hev').
  cbv zeta in Hd', Hev'. rewrite Hw, Hc, Hf in *.
  split; [done|]. split; [congruence|].
  rewrite Hd', foldl_add_table_lookup, Hd, foldl_add_table_lookup.
  destruct (data_by_year (self st) !! year); cbn; [|done].
  by rewrite <- app_assoc.
Qed.

(** *** What [process_files] never does *)

Lemma grows_refl d : grows d d.
Proof.
  intros year. destruct (d !! year) as [bucket|] eqn:Hb; [|done].
  exists []. by rewrite app_nil_r.
Qed.

Lemma grows_trans d1 d2 d3 : grows d1 d2 -> grows d2 d3 -> grows d1 d3.
Proof.
  intros H12 H23 year. specialize (H12 year). specialize (H23 year).
  destruct (d1 !! year) as [bucket|].
  - destruct H12 as [added Hb]. rewrite Hb in H23.
    destruct H23 as [added' Hb']. exists (added ++ added').
    by rewrite app_assoc.
  - by rewrite H12 in H23.
Qed.

Lemma grows_insert d (year : Z) (bucket : list Table) df :
  d !! year = Some bucket -> grows d (<[year := bucket ++ [df]]> d).
Proof.
  intros Hbucket other. destruct (decide (year = other)) as [<-|Hne].
  - rewrite Hbucket, lookup_insert_eq. eauto.
  - rewrite lookup_insert_ne by done.
    destruct (d !! other) as [b|]; [|done]. exists []. by rewrite app_nil_r.
Qed.

Lemma reads_only_after st st' evs (o : Outcome Scalar World unit) :
  reads_only st {| result := Ok tt; final := st'; emitted := evs |} ->
  reads_only st' o ->
  reads_only st (after evs o).
Proof.
  intros (Hw & Hc & Ho & Hf & Hg & Hev) (Hw' & Hc' & Ho' & Hf' & Hg' & Hev').
  cbn in *. unfold reads_only. cbn [after result final emitted].
  repeat split; try congruence.
  - by eapply grows_trans.
  - by apply Forall_app.
Qed.

Lemma process_file_reads_only st entry :
  reads_only st (process_file entry st).
Proof.
  destruct entry as [file_path description].
  pose proof (process_file_cases st file_path description) as Hcases.
  cbv zeta in Hcases.
  destruct (str_truthy file_path); cbn [negb] in Hcases.
  2: { rewrite Hcases. repeat split; [apply grows_refl | constructor]. }
  destruct (os_path_exists (world st) file_path); cbn [negb] in Hcases.
  2: { rewrite Hcases.
       repeat split; [apply grows_refl | by repeat constructor]. }
  rewrite extract_data_from_file_extracted in Hcases.
  cbn [result emitted] in Hcases.
  destruct (extracted _ _ _ _) as [df|e].
  2: { rewrite Hcases.
       repeat split; [apply grows_refl | by repeat constructor]. }
  rewrite Hcases, add_to_year_cases.
  destruct (find _ _) as [year|].
  2: { repeat split; [apply grows_refl | by repeat constructor]. }
  destruct (data_by_year (self st) !! year) as [bucket|] eqn:Hbucket.
  - repeat split; [by apply grows_insert | by repeat constructor].
  - repeat split; [apply grows_refl | by repeat constructor].
Qed.

Lemma for_each_process_file_reads_only (files : list (string * string)) st :
  reads_only st (for_each files process_file st).
Proof.
  revert st. induction files as [|entry files IH]; intros st.
  - repeat split; [apply grows_refl | constructor].
  - cbn [for_each]. unfold bind. cbv zeta.
    pose proof (process_file_reads_only st entry) as Hentry.
    destruct (process_file entry st) as [[[]|e] st' evs];
      cbn [result final emitted]; [|exact Hentry].
    by apply (reads_only_after st st').
Qed.

(** X5: whatever the extractor and the world, and also when it is stopped by
    an exception, [process_files] leaves the world, the configuration, the
    output folder and the file list as they were, never removes a bucket or
    a table from a bucket and never creates a bucket, and makes no library
    call other than [os.path.exists] and [pd.read_excel]. *)
Theorem process_files_reads_only st : reads_only st (process_files st).
Proof.
  rewrite process_files_loop. apply for_each_process_file_reads_only.
Qed.

(** *** The write step without tables *)

Lemma save_loop_without_tables (ys : list Z) st :
  (forall year, year ∈ ys -> data_by_year (self st) !! year = Some []) ->
  for_each ys save_year st =
  {| result := Ok tt; final := st; emitted := no_data <$> ys |}.
Proof.
  induction ys as [|y ys IH]; intros Hempty; [reflexivity|].
  assert (save_year y st =
          {| result := Ok tt; final := st; emitted := [no_data y] |}) as Hy.
  { unfold save_year, bind, bucket_of. cbv zeta.
    rewrite (Hempty y) by left. reflexivity. }
  rewrite (for_each_cons _ _ _ _ _ _ Hy), IH; [reflexivity|].
  intros year Hin. apply Hempty. by right.
Qed.

(** X6: when every configured year has an empty bucket,
    [save_consolidated_file] opens the writer, logs one warning per
    configured year in list order, closes the writer and logs the outcome of
    the close; when the writer does not open it logs that and stops.  It
    never concatenates and never writes a sheet, so the workbook it asks
    pandas to save has none. *)
Theorem save_consolidated_file_without_tables st :
  (forall year,
      year ∈ years (config (self st)) ->
      data_by_year (self st) !! year = Some []) ->
  let f := output_file (self st) in
  let opened := ExcelWriter_open (world st) f "openpyxl" in
  let closed := ExcelWriter_close opened.1 f in
  let o := save_consolidated_file st in
  emitted o =
    ExcelWriterOpen f "openpyxl" ::
    match opened.2 with
    | Some e =>
        [Log ERROR ("Erro ao salvar arquivo consolidado: " +:+ exc_str e)]
    | None =>
        (no_data <$> years (config (self st))) ++
        [ExcelWriterClose f;
         match closed.2 with
         | None => Log INFO ("Arquivo consolidado salvo em: " +:+ f)
         | Some e =>
             Log ERROR ("Erro ao salvar arquivo consolidado: " +:+ exc_str e)
         end]
    end /\
  world (final o) =
    match opened.2 with Some _ => opened.1 | None => closed.1 end /\
  Forall no_sheet (emitted o).
Proof.
  intros Hempty. cbv zeta.
  assert (save_consolidated_file st =
          {| result := Ok tt;
             final :=
               set_world
                 (match (ExcelWriter_open (world st) (output_file (self st))
                           "openpyxl").2 with
                  | Some _ =>
                      (ExcelWriter_open (world st) (output_file (self st))
                         "openpyxl").1
                  | None =>
                      (ExcelWriter_close
                         (ExcelWriter_open (world st) (output_file (self st))
                            "openpyxl").1 (output_file (self st))).1
                  end) st;
             emitted :=
               ExcelWriterOpen (output_file (self st)) "openpyxl" ::
               match (ExcelWriter_open (world st) (output_file (self st))
                        "openpyxl").2 with
               | Some e =>
                   [Log ERROR
                      ("Erro ao salvar arquivo consolidado: " +:+ exc_str e)]
               | None =>
                   (no_data <$> years (config (self st))) ++
                   [ExcelWriterClose (output_file (self st));
                    match (ExcelWriter_close
                             (ExcelWriter_open (world st)
                                (output_file (self st)) "openpyxl").1
                             (output_file (self st))).2 with
                    | None =>
                        Log INFO
                          ("Arquivo consolidado salvo em: "
                           +:+ output_file (self st))
                    | Some e =>
                        Log ERROR
                          ("Erro ao salvar arquivo consolidado: "
                           +:+ exc_str e)
                    end]
               end |}) as Hsave.
  { rewrite save_consolidated_file_cases. cbv zeta. unfold write_workbook.
    erewrite bind_step by reflexivity. rewrite after_nil, then_logging.
    pose proof (with_ExcelWriter_cases (output_file (self st)) "openpyxl"
                  (for_each (years (config (self st))) save_year) st) as Hw.
    cbv zeta in Hw. rewrite Hw. clear Hw.
    destruct (ExcelWriter_open (world st) _ _) as [w [e|]];
      cbn [fst snd result final emitted app]; [reflexivity|].
    rewrite save_loop_without_tables by exact Hempty.
    cbn [result final emitted world set_world].
    destruct (ExcelWriter_close w _) as [w' [e'|]];
      cbn [fst snd result final emitted app];
      by rewrite <- ?app_assoc. }
  rewrite Hsave. cbn [emitted final world set_world].
  split; [reflexivity|]. split; [reflexivity|].
  constructor; [done|].
  destruct (ExcelWriter_open (world st) _ _).2.
  - by repeat constructor.
  - apply Forall_app. split.
    + apply Forall_fmap, Forall_forall. by intros year _.
    + by destruct (ExcelWriter_close _ _).2; repeat constructor.
Qed.

(** *** [run] step by step *)

Lemma run_steps st :
  any_path (files_to_process (self st)) = true ->
  let o1 := _create_output_directory st in
  let o2 := process_files (final o1) in
  let o3 := save_consolidated_file (final o2) in
  match result o1, result o2 with
  | Ok _, Ok _ =>
      run st =
      {| result := Ok tt;
         final := final o3;
         emitted :=
           Log INFO "Iniciando processamento dos arquivos PCAT" ::
           emitted o1 ++ emitted o2 ++ emitted o3 ++
           [Log INFO "Processamento concluído com sucesso!"] |}
  | Ok _, Raise e =>
      run st =
      {| result := Raise e;
         final := final o2;
         emitted :=
           Log INFO "Iniciando processamento dos arquivos PCAT" ::
           emitted o1 ++ emitted o2 |}
  | Raise e, _ =>
      run st =
      {| result := Raise e;
         final := final o1;
         emitted :=
           Log INFO "Iniciando processamento dos arquivos PCAT" ::
           emitted o1 |}
  end.
Proof.
  intros Hany. cbv zeta. rewrite run_cases, Hany, then_logging.
  destruct (result (_create_output_directory st)) as [[]|e] eqn:Hdir.
  - rewrite (bind_Ok _ _ _ tt Hdir).
    destruct (result (process_files (final (_create_output_directory st))))
      as [[]|e] eqn:Hfiles.
    + rewrite (bind_Ok _ _ _ tt Hfiles).
      pose proof (save_consolidated_file_cases
                    (final (process_files
                              (final (_create_output_directory st)))))
        as Hsave. cbv zeta in Hsave.
      assert (result (save_consolidated_file
                        (final (process_files
                                  (final (_create_output_directory st)))))
              = Ok tt) as Hsaved.
      { rewrite Hsave.
        by destruct (result (write_workbook _ _)) as [[]|e'] eqn:Hw. }
      cbn [after result final emitted]. rewrite Hsaved.
      unfold after. cbn [result final emitted app].
      by rewrite <- !app_assoc.
    + rewrite (bind_Raise _ _ _ e Hfiles).
      by cbn [after result final emitted app].
  - rewrite (bind_Raise _ _ _ e Hdir). by cbn [after result final emitted app].
Qed.

Lemma for_each_process_file_missing (files : list (string * string)) st :
  (forall entry,
      entry ∈ files -> entry.1 <> "" ->
      os_path_exists (world st) entry.1 = false) ->
  for_each files process_file st =
  {| result := Ok tt; final := st; emitted := files ≫= missing_events |}.
Proof.
  induction files as [|entry files IH]; intros Hmissing; [reflexivity|].
  assert (process_file entry st =
          {| result := Ok tt; final := st; emitted := missing_events entry |})
    as Hentry.
  { destruct entry as [file_path description].
    pose proof (process_file_cases st file_path description) as Hcases.
    cbv zeta in Hcases. unfold missing_events. cbn [fst].
    destruct (str_truthy file_path) eqn:Htruthy; cbn [negb] in Hcases;
      [|exact Hcases].
    assert (os_path_exists (world st) file_path = false) as Hno.
    { apply (Hmissing (file_path, description)); [by left|].
      cbn [fst]. intros ->. discriminate. }
    rewrite Hno in Hcases. exact Hcases. }
  rewrite (for_each_cons _ _ _ _ _ _ Hentry), IH, bind_cons; [reflexivity|].
  intros other Hin. apply Hmissing. by right.
Qed.

(** X7: when none of the configured paths exists once the output directory
    is there, [run] still goes all the way: it logs one error per entry with
    a path, reads nothing, leaves the extractor as it was, calls
    [save_consolidated_file] on it and ends with the success record. *)
Theorem run_without_files st :
  Exists (fun entry => entry.1 <> "") (files_to_process (self st)) ->
  let o1 := _create_output_directory st in
  result o1 = Ok tt ->
  (forall entry,
      entry ∈ files_to_process (self st) -> entry.1 <> "" ->
      os_path_exists (world (final o1)) entry.1 = false) ->
  let o3 := save_consolidated_file (final o1) in
  run st =
  {| result := Ok tt;
     final := final o3;
     emitted :=
       Log INFO "Iniciando processamento dos arquivos PCAT" ::
       emitted o1 ++ (files_to_process (self st) ≫= missing_events) ++
       emitted o3 ++ [Log INFO "Processamento concluído com sucesso!"] |} /\
  self (final (run st)) = self st.
Proof.
  intros Hany%any_path_true o1 Hdir Hmissing o3. subst o1 o3.
  pose proof (run_steps st Hany) as Hrun. cbv zeta in Hrun.
  rewrite Hdir in Hrun.
  assert (process_files (final (_create_output_directory st)) =
          {| result := Ok tt;
             final := final (_create_output_directory st);
             emitted := files_to_process (self st) ≫= missing_events |})
    as Hfiles.
  { rewrite process_files_loop, _create_output_directory_self.
    apply for_each_process_file_missing.
    intros entry Hin. apply Hmissing. exact Hin. }
  rewrite Hfiles in Hrun. cbn [result final emitted] in Hrun.
  split; [exact Hrun|]. rewrite Hrun. cbn [final].
  destruct (quiet_save_consolidated_file
              (final (_create_output_directory st))) as [Hself _].
  by rewrite Hself, _create_output_directory_self.
Qed.

(** *** [__init__] and the entry point *)

(** X8: [__init__] makes one empty bucket for every year of the
    configuration, a year listed twice still having one bucket, and no bucket
    for any other year. *)
Theorem init_buckets (w : World) (cfg : ExtractionConfig) (year : Z) :
  data_by_year (__init__ w cfg) !! year =
  if bool_decide (year ∈ years cfg) then Some [] else None.
Proof.
  cbn [__init__ data_by_year]. unfold empty_buckets.
  assert (forall d,
             foldl (fun d y => <[y := []]> d) d (years cfg) !! year =
             if bool_decide (year ∈ years cfg) then Some [] else d !! year)
    as Hgen.
  { induction (years cfg) as [|y ys IH]; intros d; cbn [foldl].
    - by rewrite bool_decide_eq_false_2 by apply not_elem_of_nil.
    - rewrite IH. destruct (decide (year ∈ ys)) as [Hin|Hout].
      + rewrite !bool_decide_eq_true_2; [done | by right | done].
      + rewrite (bool_decide_eq_false_2 (year ∈ ys)) by done.
        destruct (decide (year = y)) as [->|Hne].
        * rewrite bool_decide_eq_true_2 by left. apply lookup_insert_eq.
        * rewrite bool_decide_eq_false_2.
          -- by apply lookup_insert_ne.
          -- by intros [?|?]%elem_of_cons. }
  rewrite Hgen. by rewrite lookup_empty.
Qed.


Lemma df_insert_taken (loc : nat) (column value : string) (region : Table) :
  has_column column region = true ->
  df_insert loc column value region =
  Raise (ValueError ("cannot insert " +:+ column +:+ ", already exists")).
Proof. intros Htaken. unfold df_insert. by rewrite Htaken. Qed.

(** X10: a sheet whose region already has a column labelled
    [Arquivo_Origem] or [Caminho_Arquivo] cannot be tagged:
    [extract_data_from_file] returns [None] for it and logs the refusal of
    [DataFrame.insert], so in [process_files] the file is skipped like an
    unreadable one. *)
Theorem extract_data_from_file_label_taken st file_path description
    (region : Table) (column : string) :
  let cfg := config (self st) in
  pd_read_excel (world st) file_path (sheet_name cfg)
    (start_col cfg +:+ ":" +:+ end_col cfg)
    (end_row cfg - start_row cfg + 1) (start_row cfg - 1) = inr region ->
  (column = "Arquivo_Origem" /\ has_column "Arquivo_Origem" region = true) \/
  (column = "Caminho_Arquivo" /\ has_column "Arquivo_Origem" region = false /\
   has_column "Caminho_Arquivo" region = true) ->
  extract_data_from_file (file_path, description) st =
  {| result := Ok None;
     final := st;
     emitted :=
       [read_call cfg file_path;
        Log ERROR
          ("Erro ao processar " +:+ description +:+ " (" +:+ file_path
           +:+ "): cannot insert " +:+ column +:+ ", already exists")] |}.
Proof.
  cbv zeta. intros Hread Hlabel.
  rewrite extract_data_from_file_extracted. unfold extracted. rewrite Hread.
  destruct Hlabel as [[-> H0] | (-> & H0 & H1)].
  - rewrite (df_insert_taken _ _ _ _ H0). reflexivity.
  - destruct region as [idx cols].
    assert (df_insert 0 "Arquivo_Origem" description
              {| df_index := idx; df_columns := cols |}
            = Ok {| df_index := idx;
                    df_columns :=
                      (CStr "Arquivo_Origem",
                       replicate (length idx) (CStr description)) :: cols |})
      as ->.
    { unfold df_insert. rewrite H0.
      rewrite bool_decide_eq_true_2 by lia. cbn. by rewrite drop_0. }
    rewrite df_insert_taken; [reflexivity|].
    unfold has_column in *. cbn [df_columns existsb fst label_is] in *.
    rewrite H1. apply orb_true_r.
Qed.

Lemma tables_for_app (cfg : ExtractionConfig) (w : World)
    (files files' : list (string * string)) (year : Z) :
  tables_for cfg w (files ++ files') year =
  tables_for cfg w files year ++ tables_for cfg w files' year.
Proof. unfold tables_for. apply omap_app. Qed.

(** X11: with the default years, 2014 to 2024, the last entry of the built-in
    file list, the workbook of 2025, never reaches a bucket: after
    [process_files] every bucket holds what the first eleven entries gave
    it. *)
Theorem default_years_leave_2025_out st (year : Z) :
  keys_ok st ->
  years (config (self st)) = default_years ->
  files_to_process (self st) = pcat_files ->
  data_by_year (self (final (process_files st))) !! year =
  (fun bucket =>
     bucket ++
     tables_for (config (self st)) (world st) (take 11 pcat_files) year)
    <$> data_by_year (self st) !! year.
Proof.
  intros Hkeys Hyears Hfiles. rewrite process_files_loop.
  destruct (for_each_process_file_outcome (files_to_process (self st)) st
              Hkeys) as (_ & _ & _ & _ & _ & Hd & _).
  cbv zeta in Hd. rewrite Hd, foldl_add_table_lookup, Hfiles.
  change pcat_files with (take 11 pcat_files ++ drop 11 pcat_files) at 1.
  rewrite tables_for_app.
  assert (tables_for (config (self st)) (world st) (drop 11 pcat_files) year
          = []) as ->; [|by rewrite app_nil_r].
  cbn [drop pcat_files]. rewrite tables_for_cons. unfold placed.
  rewrite Hyears. cbn [fst snd].
  destruct (_ && _); [|reflexivity].
  destruct (extracted _ _ _ _); reflexivity.
Qed.
(** *** The writer and the missing bucket *)

Lemma sheet_events_save_year (year : Z) :
  quiet (Scalar := Scalar) (World := World) sheet_event (save_year year).
Proof.
  unfold save_year. apply quiet_bind; [apply quiet_bucket_of|].
  intros [|df bucket]; [by apply quiet_logging|].
  apply quiet_bind; [by apply quiet_call_value|]. intros df_year.
  apply quiet_bind; [by apply quiet_call_world|]. intros _.
  by apply quiet_logging.
Qed.

(** X12: [save_consolidated_file] closes the writer exactly once whenever it
    has opened it, after everything the loop over the years did and also
    when that loop raised, and then logs one record; when the writer does
    not open, nothing is closed and the error is logged. *)
Theorem save_consolidated_file_closes_writer st :
  let f := output_file (self st) in
  let o := save_consolidated_file st in
  match (ExcelWriter_open (world st) f "openpyxl").2 with
  | Some e =>
      emitted o =
      [ExcelWriterOpen f "openpyxl";
       Log ERROR ("Erro ao salvar arquivo consolidado: " +:+ exc_str e)]
  | None =>
      exists loop level msg,
        emitted o =
          ExcelWriterOpen f "openpyxl" :: loop ++
          [ExcelWriterClose f; Log level msg] /\
        Forall sheet_event loop
  end.
Proof.
  cbv zeta. rewrite save_consolidated_file_cases. cbv zeta.
  unfold write_workbook.
  erewrite bind_step by reflexivity. rewrite after_nil, then_logging.
  pose proof (with_ExcelWriter_cases (output_file (self st)) "openpyxl"
                (for_each (years (config (self st))) save_year) st) as Hw.
  cbv zeta in Hw. rewrite Hw. clear Hw.
  destruct (ExcelWriter_open (world st) _ _) as [w [e|]];
    cbn [fst snd result final emitted app]; [reflexivity|].
  destruct (quiet_for_each sheet_event (years (config (self st))) save_year
              sheet_events_save_year (set_world w st)) as [_ Hloop].
  set (loop := for_each (years (config (self st))) save_year (set_world w st))
    in *.
  exists (emitted loop).
  destruct (result loop) as [[]|e];
    destruct (ExcelWriter_close _ _) as [w' [e'|]];
    cbn [fst snd result final emitted app];
    eexists _, _; (split; [by rewrite <- ?app_assoc | exact Hloop]).
Qed.

(** X13: when the year that a table belongs to has no bucket, the entry
    raises [KeyError] for that year after the file was read; the loop of
    [process_files] stops there, with the buckets as they were and the
    remaining entries not looked at. *)
Theorem process_files_missing_bucket st file_path description df (year : Z)
    (rest : list (string * string)) :
  str_truthy file_path = true ->
  os_path_exists (world st) file_path = true ->
  result (extract_data_from_file (file_path, description) st)
    = Ok (Some df) ->
  find (fun y => str_in (str y) file_path) (years (config (self st)))
    = Some year ->
  data_by_year (self st) !! year = None ->
  for_each ((file_path, description) :: rest) process_file st =
  {| result := Raise (KeyError year);
     final := st;
     emitted :=
       [OsPathExists file_path;
        Log INFO ("Processando arquivo: " +:+ description);
        read_call (config (self st)) file_path] |}.
Proof.
  intros Htruthy Hexists Hres Hfind Hnone.
  pose proof (process_file_cases st file_path description) as Hcases.
  cbv zeta in Hcases. rewrite Htruthy, Hexists, Hres in Hcases.
  cbn [negb] in Hcases.
  rewrite add_to_year_cases, Hfind, Hnone in Hcases.
  rewrite extract_data_from_file_extracted in Hcases, Hres.
  cbn [result emitted] in Hcases, Hres.
  destruct (extracted _ _ _ _); [|discriminate].
  cbn [for_each]. rewrite (bind_Raise _ _ _ (KeyError year)).
  - rewrite Hcases. unfold after. cbn [result final emitted app].
    reflexivity.
  - by rewrite Hcases.
Qed.
End Coverage.

(** ** The further properties on the small runtime *)

Lemma process_files_buckets_witness :
  data_by_year (self (final (process_files Demo.start))) !! 2020
    = Some [Demo.table_2020] /\
  data_by_year (self (final (process_files Demo.start))) !! 2021 = Some [].
Proof.
  split.
  - rewrite (process_files_buckets Demo.start 2020 demo_keys_ok).
    reflexivity.
  - rewrite (process_files_buckets Demo.start 2021 demo_keys_ok).
    reflexivity.
Defined.

Lemma process_files_events_witness :
  emitted (process_files Demo.start) =
  [OsPathExists "/data/PCAT_2019.xlsx";
   Log ERROR "Arquivo não encontrado: /data/PCAT_2019.xlsx";
   OsPathExists "/data/PCAT_2020.xlsx";
   Log INFO "Processando arquivo: PCAT 2020";
   ReadExcel "/data/PCAT_2020.xlsx" "EFEITO" "AI:AV" 11 0;
   Log INFO "Dados de PCAT 2020 adicionados ao ano 2020";
   OsPathExists "/data/PCAT.xlsx";
   Log INFO "Processando arquivo: PCAT sem ano";
   ReadExcel "/data/PCAT.xlsx" "EFEITO" "AI:AV" 11 0].
Proof.
  destruct (process_files_events Demo.start demo_keys_ok) as [_ Hev].
  rewrite Hev. reflexivity.
Defined.

Lemma process_files_reads_each_file_once_witness :
  read_calls (emitted (process_files Demo.start)) =
  [ReadExcel "/data/PCAT_2020.xlsx" "EFEITO" "AI:AV" 11 0;
   ReadExcel "/data/PCAT.xlsx" "EFEITO" "AI:AV" 11 0].
Proof.
  rewrite (process_files_reads_each_file_once Demo.start demo_keys_ok).
  reflexivity.
Defined.

Lemma process_files_twice_witness :
  data_by_year
    (self (final (process_files (final (process_files Demo.start))))) !! 2020
  = Some [Demo.table_2020; Demo.table_2020].
Proof.
  destruct (process_files_twice Demo.start 2020 demo_keys_ok)
    as (_ & _ & Htwice).
  rewrite Htwice. reflexivity.
Defined.

Lemma save_consolidated_file_without_tables_witness :
  emitted
    (save_consolidated_file (final (_create_output_directory Demo.start))) =
  [ExcelWriterOpen
     "/home/user/resultados_efeito/PCAT_Efeito_Consolidado.xlsx" "openpyxl";
   Log WARNING "Nenhum dado encontrado para o ano 2020";
   Log WARNING "Nenhum dado encontrado para o ano 2021";
   ExcelWriterClose
     "/home/user/resultados_efeito/PCAT_Efeito_Consolidado.xlsx";
   Log ERROR
     "Erro ao salvar arquivo consolidado: At least one sheet must be visible"].
Proof.
  destruct (save_consolidated_file_without_tables
              (final (_create_output_directory Demo.start)))
    as (Hev & _ & _).
  - intros year Hin. cbn in Hin.
    apply elem_of_cons in Hin as [->|Hin]; [reflexivity|].
    apply list_elem_of_singleton in Hin as ->. reflexivity.
  - rewrite Hev. reflexivity.
Defined.

Lemma run_without_files_witness :
  emitted (run Demo.bare) =
  [Log INFO "Iniciando processamento dos arquivos PCAT";
   OsPathExists "/home/user/resultados_efeito";
   OsMakedirs "/home/user/resultados_efeito";
   Log INFO "Diretório criado: /home/user/resultados_efeito";
   OsPathExists "/data/PCAT_2019.xlsx";
   Log ERROR "Arquivo não encontrado: /data/PCAT_2019.xlsx";
   OsPathExists "/data/PCAT_2020.xlsx";
   Log ERROR "Arquivo não encontrado: /data/PCAT_2020.xlsx";
   OsPathExists "/data/PCAT.xlsx";
   Log ERROR "Arquivo não encontrado: /data/PCAT.xlsx";
   ExcelWriterOpen
     "/home/user/resultados_efeito/PCAT_Efeito_Consolidado.xlsx" "openpyxl";
   Log WARNING "Nenhum dado encontrado para o ano 2020";
   Log WARNING "Nenhum dado encontrado para o ano 2021";
   ExcelWriterClose
     "/home/user/resultados_efeito/PCAT_Efeito_Consolidado.xlsx";
   Log ERROR
     "Erro ao salvar arquivo consolidado: At least one sheet must be visible";
   Log INFO "Processamento concluído com sucesso!"] /\
  self (final (run Demo.bare)) = self Demo.bare.
Proof.
  destruct (run_without_files Demo.bare) as [Hrun Hself].
  - apply Exists_cons_tl, Exists_cons_hd. discriminate.
  - reflexivity.
  - intros entry Hin _. cbn in Hin.
    repeat (apply elem_of_cons in Hin as [->|Hin]; [reflexivity|]).
    by apply elem_of_nil in Hin.
  - split; [|exact Hself]. rewrite Hrun. reflexivity.
Defined.


Lemma extract_data_from_file_label_taken_witness :
  extract_data_from_file (Runtime0 := Demo.replay)
    ("/data/PCAT_2020.xlsx", "PCAT 2020") Demo.start =
  {| result := Ok None;
     final := Demo.start;
     emitted :=
       [ReadExcel "/data/PCAT_2020.xlsx" "EFEITO" "AI:AV" 11 0;
        Log ERROR
          "Erro ao processar PCAT 2020 (/data/PCAT_2020.xlsx): cannot insert Arquivo_Origem, already exists"]
  |}.
Proof.
  apply (extract_data_from_file_label_taken (Runtime0 := Demo.replay)
           Demo.start "/data/PCAT_2020.xlsx" "PCAT 2020" Demo.table_2020
           "Arquivo_Origem").
  - reflexivity.
  - left. split; reflexivity.
Defined.

Lemma default_years_leave_2025_out_witness :
  data_by_year (self (final (process_files Demo.archive))) !! 2024
  = Some
      [tagged "PCAT Maranhão 2024"
         "C:\Users\Hiden Number\Desktop\PCATs\PCAT Equatorial MA 2024 V02.xlsx"
         Demo.region] /\
  read_calls (emitted (process_files Demo.archive)) =
  [ReadExcel
     "C:\Users\Hiden Number\Desktop\PCATs\PCAT Equatorial MA 2024 V02.xlsx"
     "EFEITO" "AI:AV" 11 0;
   ReadExcel
     "C:\Users\Hiden Number\Desktop\PCATs\PCAT Equatorial MA 2025 V02.xlsx"
     "EFEITO" "AI:AV" 11 0].
Proof.
  split; [|reflexivity].
  rewrite (default_years_leave_2025_out Demo.archive 2024).
  - reflexivity.
  - apply keys_ok_init.
  - reflexivity.
  - reflexivity.
Defined.

Lemma save_consolidated_file_closes_writer_witness :
  exists loop level msg,
    emitted (save_consolidated_file Demo.processed) =
      ExcelWriterOpen
        "/home/user/resultados_efeito/PCAT_Efeito_Consolidado.xlsx"
        "openpyxl" ::
      loop ++
      [ExcelWriterClose
         "/home/user/resultados_efeito/PCAT_Efeito_Consolidado.xlsx";
       Log level msg] /\
    Forall sheet_event loop.
Proof. exact (save_consolidated_file_closes_writer Demo.processed). Defined.

Lemma process_files_missing_bucket_witness :
  process_files Demo.unkeyed =
  {| result := Raise (KeyError 2020);
     final := Demo.unkeyed;
     emitted :=
       [OsPathExists "/data/PCAT_2019.xlsx";
        Log ERROR "Arquivo não encontrado: /data/PCAT_2019.xlsx";
        OsPathExists "/data/PCAT_2020.xlsx";
        Log INFO "Processando arquivo: PCAT 2020";
        ReadExcel "/data/PCAT_2020.xlsx" "EFEITO" "AI:AV" 11 0] |}.
Proof.
  assert (for_each (drop 2 Demo.files) process_file Demo.unkeyed =
          {| result := Raise (KeyError 2020);
             final := Demo.unkeyed;
             emitted :=
               [OsPathExists "/data/PCAT_2020.xlsx";
                Log INFO "Processando arquivo: PCAT 2020";
                ReadExcel "/data/PCAT_2020.xlsx" "EFEITO" "AI:AV" 11 0] |})
    as Hstop.
  { apply (process_files_missing_bucket Demo.unkeyed "/data/PCAT_2020.xlsx"
             "PCAT 2020" Demo.table_2020 2020 (drop 3 Demo.files));
      reflexivity. }
  change (process_files Demo.unkeyed)
    with (after
            [OsPathExists "/data/PCAT_2019.xlsx";
             Log ERROR "Arquivo não encontrado: /data/PCAT_2019.xlsx"]
            (for_each (drop 2 Demo.files) process_file Demo.unkeyed)).
  rewrite Hstop. reflexivity.
Defined.
